(** * micoreca: bin/collect_bioconda_recipes.py

    A shallow embedding of the recipe loader, the keyword filter, the
    keyword loader, the export and the main program of
    [collect_bioconda_recipes.py], with the properties its specification
    states about them and further properties read off the code.

    Modelling conventions.
    - Python [str] values are Rocq strings; the text handled is taken to be
      ASCII, on which [str.lower] changes exactly the letters A-Z and
      [str.split()] cuts at the characters for which [str.isspace] holds.
    - The values [yaml.safe_load] produces are [None], booleans, integers,
      strings, lists and dicts with scalar keys (floats, timestamps and
      binary scalars are left out).
    - A Python dict is an association list in insertion order: the order
      decides in which order recipes are visited, hence which exception is
      raised first and in which order diagnostics are printed.
    - An exception is the [Raise] outcome of a computation.
    - [jinja2], [yaml] and the file system are parameters of the loader.
    - A file the export writes is named by the collection whose JSON text
      [json.dump] puts in it; whether [json.dump] raises is a parameter of
      the export.
    - [fnmatch.fnmatch] is modelled as in CPython 3.11 on a POSIX system,
      where [os.path.normcase] is the identity. *)

From Stdlib Require Import String Ascii List Bool ZArith Lia.
Import ListNotations.
Open Scope string_scope.

(** ** Python values *)

(** Hashable scalars, the only values a YAML mapping key or a key of the
    recipe collection can be. *)
Inductive key : Type :=
| KNone
| KBool (b : bool)
| KInt (z : Z)
| KStr (s : string).

#[warnings="-register-all"]
Inductive value : Type :=
| VNone
| VBool (b : bool)
| VInt (z : Z)
| VStr (s : string)
| VList (l : list value)
| VDict (d : list (key * value)).

Definition dict : Type := list (key * value).

Inductive exn : Type :=
| ValueError (msg : string)
| TypeError (msg : string)
| AttributeError (msg : string)
| KeyError (k : string)
| RuntimeError (msg : string)
| OSError
| YAMLError.

Inductive result (A : Type) : Type :=
| Ok (a : A)
| Raise (e : exn).
Arguments Ok {A} a.
Arguments Raise {A} e.

Definition bind {A B : Type} (m : result A) (f : A -> result B) : result B :=
  match m with
  | Ok a => f a
  | Raise e => Raise e
  end.

Notation "x <- m ;; k" := (bind m (fun x => k))
  (at level 61, m at next level, right associativity).

(** *** Dictionaries *)

(** Python compares and hashes [True] like [1] and [False] like [0], so as
    dict keys a boolean and the integer it equals are one key. *)
Definition key_norm (k : key) : key :=
  match k with
  | KBool b => KInt (Z.b2z b)
  | _ => k
  end.

Definition key_beq (a b : key) : bool :=
  match a, b with
  | KNone, KNone => true
  | KBool x, KBool y => Bool.eqb x y
  | KInt x, KInt y => Z.eqb x y
  | KStr x, KStr y => String.eqb x y
  | _, _ => false
  end.

Definition key_eqb (a b : key) : bool := key_beq (key_norm a) (key_norm b).

Fixpoint dict_get (d : dict) (k : key) : option value :=
  match d with
  | [] => None
  | (k', v) :: d' => if key_eqb k' k then Some v else dict_get d' k
  end.

(** [d[k] = v]: an existing key keeps its place (and its key object), a new
    one goes to the end. *)
Fixpoint dict_set (d : dict) (k : key) (v : value) : dict :=
  match d with
  | [] => [(k, v)]
  | (k', v') :: d' =>
      if key_eqb k' k then (k', v) :: d' else (k', v') :: dict_set d' k v
  end.

Definition dict_has (d : dict) (k : key) : bool :=
  match dict_get d k with
  | Some _ => true
  | None => false
  end.

(** No two entries under one key: what every Python dict satisfies. *)
Fixpoint dict_wf (d : dict) : bool :=
  match d with
  | [] => true
  | (k, _) :: d' => negb (dict_has d' k) && dict_wf d'
  end.

(** [hash(v)]: lists and dicts are unhashable. *)
Definition to_key (v : value) : result key :=
  match v with
  | VNone => Ok KNone
  | VBool b => Ok (KBool b)
  | VInt z => Ok (KInt z)
  | VStr s => Ok (KStr s)
  | VList _ => Raise (TypeError "unhashable type: 'list'")
  | VDict _ => Raise (TypeError "unhashable type: 'dict'")
  end.

(** *** Strings *)

Definition is_upper (c : ascii) : bool :=
  (65 <=? nat_of_ascii c)%nat && (nat_of_ascii c <=? 90)%nat.

Definition lower_char (c : ascii) : ascii :=
  if is_upper c then ascii_of_nat (nat_of_ascii c + 32) else c.

(** [s.lower()] *)
Fixpoint lower (s : string) : string :=
  match s with
  | EmptyString => EmptyString
  | String c s' => String (lower_char c) (lower s')
  end.

Fixpoint startswith (s p : string) {struct p} : bool :=
  match p, s with
  | EmptyString, _ => true
  | String _ _, EmptyString => false
  | String a p', String b s' => Ascii.eqb a b && startswith s' p'
  end.

(** [sub in s] on two strings. *)
Fixpoint str_in (sub s : string) : bool :=
  startswith s sub ||
  match s with
  | EmptyString => false
  | String _ s' => str_in sub s'
  end.

(** [c.isspace()] on ASCII: tab, line feed, vertical tab, form feed,
    carriage return, the four separators 0x1c-0x1f and the space. *)
Definition is_space (c : ascii) : bool :=
  let n := nat_of_ascii c in
  ((9 <=? n)%nat && (n <=? 13)%nat) || ((28 <=? n)%nat && (n <=? 32)%nat).

Definition is_empty (s : string) : bool :=
  match s with
  | EmptyString => true
  | String _ _ => false
  end.

(** [split_ws s word] cuts [word ++ s] given that [word], the token being
    read, holds no whitespace. *)
Fixpoint split_ws (s word : string) : list string :=
  match s with
  | EmptyString => if is_empty word then [] else [word]
  | String c s' =>
      if is_space c
      then (if is_empty word then split_ws s' EmptyString else word :: split_ws s' EmptyString)
      else split_ws s' (word ++ String c EmptyString)
  end.

(** [s.split()] *)
Definition split (s : string) : list string := split_ws s EmptyString.

(** *** fnmatch *)

(** The pieces a pattern is translated to: [*], [?], a bracket expression
    with the text between its brackets, and a character standing for
    itself. *)
Inductive glob_item : Type :=
| GStar
| GAny
| GSet (stuff : string)
| GChar (c : ascii).

(** The text up to the next closing bracket, with its length. *)
Fixpoint scan_close (s : string) : option (string * nat) :=
  match s with
  | EmptyString => None
  | String c s' =>
      if Ascii.eqb c "]" then Some (EmptyString, 0%nat)
      else match scan_close s' with
           | Some (body, n) => Some (String c body, S n)
           | None => None
           end
  end.

(** What follows an opening bracket: an optional [!], an optional [']'] that
    stands for itself, then everything up to the closing bracket.  Returns
    the text between the brackets and the number of characters up to and
    including the closing bracket; [None] when the bracket is never
    closed. *)
Definition bracket (s : string) : option (string * nat) :=
  match s with
  | String "!" (String "]" t) =>
      match scan_close t with
      | Some (body, n) => Some (String "!" (String "]" body), S (S (S n)))
      | None => None
      end
  | String "!" t =>
      match scan_close t with
      | Some (body, n) => Some (String "!" body, S (S n))
      | None => None
      end
  | String "]" t =>
      match scan_close t with
      | Some (body, n) => Some (String "]" body, S (S n))
      | None => None
      end
  | _ =>
      match scan_close s with
      | Some (body, n) => Some (body, S n)
      | None => None
      end
  end.

(** [translate_from skip pat]: the items of [pat] after its first [skip]
    characters, which belong to a bracket expression already emitted. *)
Fixpoint translate_from (skip : nat) (pat : string) : list glob_item :=
  match pat with
  | EmptyString => []
  | String c rest =>
      match skip with
      | S k => translate_from k rest
      | O =>
          if Ascii.eqb c "*" then GStar :: translate_from 0 rest
          else if Ascii.eqb c "?" then GAny :: translate_from 0 rest
          else if Ascii.eqb c "[" then
            match bracket rest with
            | Some (stuff, n) => GSet stuff :: translate_from n rest
            | None => GChar c :: translate_from 0 rest
            end
          else GChar c :: translate_from 0 rest
      end
  end.

Definition translate (pat : string) : list glob_item := translate_from 0 pat.

Definition ascii_leb (a b : ascii) : bool :=
  (nat_of_ascii a <=? nat_of_ascii b)%nat.

Definition first_char (s : string) : option ascii :=
  match s with
  | EmptyString => None
  | String c _ => Some c
  end.

Definition tail (s : string) : string :=
  match s with
  | EmptyString => EmptyString
  | String _ s' => s'
  end.

Fixpoint last_char (s : string) : option ascii :=
  match s with
  | EmptyString => None
  | String c EmptyString => Some c
  | String _ s' => last_char s'
  end.

(** [s[:-1]] *)
Fixpoint init (s : string) : string :=
  match s with
  | EmptyString => EmptyString
  | String _ EmptyString => EmptyString
  | String c s' => String c (init s')
  end.

Fixpoint has_char (c : ascii) (s : string) : bool :=
  match s with
  | EmptyString => false
  | String x s' => Ascii.eqb x c || has_char c s'
  end.

(** The text between the brackets cut into chunks at the hyphens that make
    ranges, as [fnmatch.translate] of CPython 3.11 cuts it: a hyphen is
    looked for from the second character on (from the third when the text
    starts with [!]), and after a hyphen from the third character of the
    new chunk on; a hyphen that ends the text stays in the last chunk.
    [skip] counts the characters still to pass before a hyphen counts,
    [chunk] is the chunk being read. *)
Fixpoint chunks_from (skip : nat) (chunk stuff : string) : list string :=
  match stuff with
  | EmptyString => [chunk]
  | String c rest =>
      match skip with
      | S n => chunks_from n (chunk ++ String c EmptyString) rest
      | O =>
          if Ascii.eqb c "-"
          then (if is_empty rest
                then [chunk ++ String c EmptyString]
                else chunk :: chunks_from 2 EmptyString rest)
          else chunks_from 0 (chunk ++ String c EmptyString) rest
      end
  end.

(** The empty ranges are taken out, from the last one to the first: where a
    chunk ends above the start of the next one, the two chunks are joined
    without those two characters. *)
Fixpoint drop_empty_ranges (chunks : list string) : list string :=
  match chunks with
  | [] => []
  | chunk :: rest =>
      match drop_empty_ranges rest with
      | [] => [chunk]
      | next :: rest' =>
          match last_char chunk, first_char next with
          | Some lo, Some hi =>
              if ascii_leb lo hi then chunk :: next :: rest'
              else (init chunk ++ tail next) :: rest'
          | _, _ => chunk :: next :: rest'
          end
      end
  end.

(** Membership in the set the chunks joined by hyphens denote: the last
    character of a chunk and the first of the next one bound a range, every
    other character stands for itself.  (At a join no chunk is empty; the
    second case is there for totality and reads the hyphen as itself.) *)
Fixpoint chunks_mem (c : ascii) (chunk : string) (rest : list string) : bool :=
  match rest with
  | [] => has_char c chunk
  | next :: rest' =>
      match last_char chunk, first_char next with
      | Some lo, Some hi =>
          has_char c (init chunk) || (ascii_leb lo c && ascii_leb c hi)
          || chunks_mem c (tail next) rest'
      | _, _ => has_char c chunk || Ascii.eqb c "-" || chunks_mem c next rest'
      end
  end.

(** Whether a character matches a bracket expression: nothing matches an
    expression left empty, every character matches one left with [!] alone,
    a leading [!] negates, and otherwise the chunks decide. *)
Definition class_match (stuff : string) (c : ascii) : bool :=
  let skip := match stuff with String "!" _ => 2%nat | _ => 1%nat end in
  match drop_empty_ranges (chunks_from skip EmptyString stuff) with
  | [] => false
  | EmptyString :: [] => false
  | String "!" EmptyString :: [] => true
  | String "!" chunk :: rest => negb (chunks_mem c chunk rest)
  | chunk :: rest => chunks_mem c chunk rest
  end.

Fixpoint glob_match (items : list glob_item) (w : string) : bool :=
  match items with
  | [] => is_empty w
  | GStar :: items' =>
      (fix star (w : string) : bool :=
         glob_match items' w ||
         match w with
         | EmptyString => false
         | String _ w' => star w'
         end) w
  | GAny :: items' =>
      match w with
      | EmptyString => false
      | String _ w' => glob_match items' w'
      end
  | GSet stuff :: items' =>
      match w with
      | EmptyString => false
      | String c w' => class_match stuff c && glob_match items' w'
      end
  | GChar x :: items' =>
      match w with
      | EmptyString => false
      | String c w' => Ascii.eqb x c && glob_match items' w'
      end
  end.

(** [fnmatch.fnmatch(name, pat)] *)
Definition fnmatch (name pat : string) : bool := glob_match (translate pat) name.

(** *** Operations of the interpreter *)

(** [bool(v)] *)
Definition truthy (v : value) : bool :=
  match v with
  | VNone => false
  | VBool b => b
  | VInt z => negb (Z.eqb z 0)
  | VStr s => negb (is_empty s)
  | VList l => match l with [] => false | _ :: _ => true end
  | VDict d => match d with [] => false | _ :: _ => true end
  end.

Definition is_str (s : string) (v : value) : bool :=
  match v with
  | VStr t => String.eqb t s
  | _ => false
  end.

(** [s in c] for a string [s]: key membership in a dict, element membership
    in a list, substring test in a string. *)
Definition py_contains (s : string) (c : value) : result bool :=
  match c with
  | VDict d => Ok (dict_has d (KStr s))
  | VList l => Ok (existsb (is_str s) l)
  | VStr t => Ok (str_in s t)
  | VNone => Raise (TypeError "argument of type 'NoneType' is not iterable")
  | VBool _ => Raise (TypeError "argument of type 'bool' is not iterable")
  | VInt _ => Raise (TypeError "argument of type 'int' is not iterable")
  end.

(** [c[s]] for a string [s]. *)
Definition py_getitem (c : value) (s : string) : result value :=
  match c with
  | VDict d =>
      match dict_get d (KStr s) with
      | Some v => Ok v
      | None => Raise (KeyError s)
      end
  | VList _ => Raise (TypeError "list indices must be integers or slices, not str")
  | VStr _ => Raise (TypeError "string indices must be integers, not 'str'")
  | VNone => Raise (TypeError "'NoneType' object is not subscriptable")
  | VBool _ => Raise (TypeError "'bool' object is not subscriptable")
  | VInt _ => Raise (TypeError "'int' object is not subscriptable")
  end.

(** [c.get(s, default)] *)
Definition py_get (c : value) (s : string) (default : value) : result value :=
  match c with
  | VDict d =>
      match dict_get d (KStr s) with
      | Some v => Ok v
      | None => Ok default
      end
  | _ => Raise (AttributeError "object has no attribute 'get'")
  end.

Definition num (v : value) : Z :=
  match v with
  | VInt z => z
  | VBool b => Z.b2z b
  | _ => 0%Z
  end.

(** [a + b] *)
Definition py_add (a b : value) : result value :=
  match a, b with
  | VStr x, VStr y => Ok (VStr (x ++ y))
  | VList x, VList y => Ok (VList (x ++ y)%list)
  | (VInt _ | VBool _), (VInt _ | VBool _) => Ok (VInt (num a + num b))
  | _, _ => Raise (TypeError "unsupported operand type(s) for +")
  end.

(** [v.lower()] *)
Definition py_lower (v : value) : result string :=
  match v with
  | VStr s => Ok (lower s)
  | _ => Raise (AttributeError "object has no attribute 'lower'")
  end.

(** *** Standard output *)

(** The lines the program prints, by the f-string that formats them. *)
Inductive line : Type :=
| MatchFound (name : key) (matched : list value)
| TotalMatches (counter : nat)
| Loaded (count : nat) (keyword_file : string).

(** A computation that prints and then returns or raises. *)
Definition io (A : Type) : Type := list line -> list line * result A.

Definition io_ret {A : Type} (a : A) : io A := fun out => (out, Ok a).

Definition io_bind {A B : Type} (m : io A) (f : A -> io B) : io B :=
  fun out =>
    match m out with
    | (out', Ok a) => f a out'
    | (out', Raise e) => (out', Raise e)
    end.

Definition lift {A : Type} (r : result A) : io A := fun out => (out, r).

Definition print (l : line) : io unit := fun out => ((out ++ [l])%list, Ok tt).

Notation "x <~ m ;; k" := (io_bind m (fun x => k))
  (at level 61, m at next level, right associativity).

Fixpoint for_each {S X : Type} (body : S -> X -> io S) (xs : list X) (st : S)
  : io S :=
  match xs with
  | [] => io_ret st
  | x :: xs' => st' <~ body st x ;; for_each body xs' st'
  end.

(** What a run printed and what it returned, from an empty output. *)
Definition printed {A : Type} (m : io A) : list line := fst (m []).
Definition returned {A : Type} (m : io A) : result A := snd (m []).

(** ** Keyword filter *)

(** Lines 80-81: the text of a recipe the keywords are looked for in. *)
Definition search_text (recipe : value) : result string :=
  about <- py_get recipe "about" (VDict []) ;;
  description <- py_get about "description" (VStr EmptyString) ;;
  left <- py_add description (VStr " ") ;;
  summary <- py_get about "summary" (VStr EmptyString) ;;
  text <- py_add left summary ;;
  py_lower text.

(** Lines 86-92: the test of one lower-cased keyword. *)
Definition keyword_hit (text kw_lower : string) : bool :=
  if str_in "*" kw_lower
  then existsb (fun word => fnmatch word kw_lower) (split text)
  else str_in kw_lower text.

(** Lines 83-92: the keywords that match, appended to [matched] in order. *)
Fixpoint matched_keywords (text : string) (keywords matched : list value)
  : result (list value) :=
  match keywords with
  | [] => Ok matched
  | kw :: rest =>
      kw_lower <- py_lower kw ;;
      matched_keywords text rest
        (if keyword_hit text kw_lower then (matched ++ [kw])%list else matched)
  end.

(** Lines 79-98: one round of the loop over [conda.items()]. *)
Definition filter_body (keywords : list value) (verbose : bool)
  (st : dict * nat) (item : key * value) : io (dict * nat) :=
  let '(filtered_conda, counter) := st in
  let '(name, recipe) := item in
  text <~ lift (search_text recipe) ;;
  matched <~ lift (matched_keywords text keywords []) ;;
  match matched with
  | [] => io_ret (filtered_conda, counter)
  | _ :: _ =>
      _ <~ (if verbose then print (MatchFound name matched) else io_ret tt) ;;
      io_ret (dict_set filtered_conda name recipe, S counter)
  end.

Definition filter_conda_by_keywords (conda : dict) (keywords : list value)
  (verbose : bool) : io dict :=
  st <~ for_each (filter_body keywords verbose) conda ([], 0%nat) ;;
  _ <~ (if verbose then print (TotalMatches (snd st)) else io_ret tt) ;;
  io_ret (fst st).

(** ** Recipe loader and keyword loader *)

(** What the loader takes from outside the program. *)
Record externals : Type := {
  (** [Path(directory).glob("./*/meta.yaml")] *)
  glob_meta : string -> list string;
  (** The text of a file; [None] when reading raises. *)
  read_text : string -> option string;
  (** [jinja2.Template(text).render(...)] with the stand-ins of lines 33-42;
      [None] when building or rendering the template raises. *)
  render : string -> option string;
  (** [yaml.safe_load]; [None] when it raises [yaml.YAMLError]. *)
  safe_load : string -> option value
}.

Section Loader.

Variable ext : externals.

(** Lines 29-45 *)
Definition render_file (p : string) : result string :=
  match read_text ext p with
  | Some text =>
      match render ext text with
      | Some rendered => Ok rendered
      | None => Raise (RuntimeError ("Failed to render Jinja2 template in " ++ p))
      end
  | None => Raise (RuntimeError ("Failed to render Jinja2 template in " ++ p))
  end.

(** Lines 47-51 *)
Definition parse_yaml (p rendered : string) : result value :=
  match safe_load ext rendered with
  | Some conda => Ok conda
  | None => Raise (RuntimeError ("Failed to parse YAML in " ++ p))
  end.

(** Lines 29-51: the document a file renders and parses to. *)
Definition document (p : string) : result value :=
  rendered <- render_file p ;; parse_yaml p rendered.

(** Line 54: [not conda or "package" not in conda or
    "name" not in conda["package"]], left to right. *)
Definition name_missing (conda : value) : result bool :=
  if negb (truthy conda) then Ok true
  else
    has_package <- py_contains "package" conda ;;
    if negb has_package then Ok true
    else
      package <- py_getitem conda "package" ;;
      has_name <- py_contains "name" package ;;
      Ok (negb has_name).

(** Lines 29-58: one round of the loop over [paths]. *)
Definition load_recipe (data : dict) (p : string) : result dict :=
  rendered <- render_file p ;;
  conda <- parse_yaml p rendered ;;
  missing <- name_missing conda ;;
  if missing then Raise (ValueError ("Missing 'package.name' in " ++ p))
  else
    package <- py_getitem conda "package" ;;
    pkg_name <- py_getitem package "name" ;;
    k <- to_key pkg_name ;;
    Ok (dict_set data k conda).

Fixpoint load_all (paths : list string) (data : dict) : result dict :=
  match paths with
  | [] => Ok data
  | p :: paths' => data' <- load_recipe data p ;; load_all paths' data'
  end.

Definition parse_bioconda (directory : string) : result dict :=
  load_all (glob_meta ext directory) [].

(** Lines 130-131: [not data or "keywords" not in data]. *)
Definition keywords_missing (data : value) : result bool :=
  if negb (truthy data) then Ok true
  else
    has_keywords <- py_contains "keywords" data ;;
    Ok (negb has_keywords).

(** Lines 130-138: what is done with the parsed document. *)
Definition keywords_of (keyword_file : string) (data : value)
  : io (list value) :=
  missing <~ lift (keywords_missing data) ;;
  if missing
  then lift (Raise (ValueError ("No 'keywords' key found in " ++ keyword_file)))
  else
    keywords <~ lift (py_getitem data "keywords") ;;
    match keywords with
    | VList l =>
        _ <~ print (Loaded (length l) keyword_file) ;;
        io_ret l
    | _ =>
        lift (Raise (TypeError ("'keywords' in " ++ keyword_file ++ " must be a list")))
    end.

Definition load_keywords_from_yaml (keyword_file : string) : io (list value) :=
  match read_text ext keyword_file with
  | None => lift (Raise OSError)
  | Some text =>
      match safe_load ext text with
      | None => lift (Raise YAMLError)
      | Some data => keywords_of keyword_file data
      end
  end.

(** Lines 165-166: the loader followed by the filter. *)
Definition pipeline (directory : string) (keywords : list value)
  (verbose : bool) : io dict :=
  conda <~ lift (parse_bioconda directory) ;;
  filter_conda_by_keywords conda keywords verbose.

End Loader.

(** ** The data model of the specification *)

(** The [package.name] value of a parsed document. *)
Definition package_name (conda : value) : option value :=
  match conda with
  | VDict d =>
      match dict_get d (KStr "package") with
      | Some (VDict package) => dict_get package (KStr "name")
      | _ => None
      end
  | _ => None
  end.

(** The collection key a [package.name] value makes, when it is hashable. *)
Definition name_key (conda : value) : option key :=
  match package_name conda with
  | Some name =>
      match to_key name with
      | Ok k => Some k
      | Raise _ => None
      end
  | None => None
  end.

(** The configuration document is a mapping with the recognized key. *)
Definition has_keywords_key (data : value) : bool :=
  match data with
  | VDict d => dict_has d (KStr "keywords")
  | _ => false
  end.

(** The optional [about] section of a recipe: no section counts as an empty
    one. *)
Definition about_section (recipe : value) : option dict :=
  match recipe with
  | VDict d =>
      match dict_get d (KStr "about") with
      | None => Some []
      | Some (VDict about) => Some about
      | Some _ => None
      end
  | _ => None
  end.

(** An optional free-text field: no field counts as the empty string. *)
Definition text_field (about : dict) (field : string) : option string :=
  match dict_get about (KStr field) with
  | None => Some EmptyString
  | Some (VStr s) => Some s
  | Some _ => None
  end.

(** A Recipe of the data model: a mapping whose [about] section, when there
    is one, is a mapping whose [description] and [summary], when there are
    any, are strings. *)
Definition is_recipe (recipe : value) : bool :=
  match about_section recipe with
  | Some about =>
      match text_field about "description", text_field about "summary" with
      | Some _, Some _ => true
      | _, _ => false
      end
  | None => false
  end.

(** The search text as the specification words it: summary, one space,
    description, lower-cased. *)
Definition spec_search_text (summary description : string) : string :=
  lower (summary ++ " " ++ description).

(** A literal pattern: none of its characters is special to [fnmatch]. *)
Fixpoint plain (p : string) : bool :=
  match p with
  | EmptyString => true
  | String c p' =>
      negb (Ascii.eqb c "*") && negb (Ascii.eqb c "?") && negb (Ascii.eqb c "[")
      && plain p'
  end.

(** The items a literal pattern is translated to. *)
Fixpoint literals (p : string) : list glob_item :=
  match p with
  | EmptyString => []
  | String c p' => GChar c :: literals p'
  end.

Fixpoint no_space (s : string) : bool :=
  match s with
  | EmptyString => true
  | String c s' => negb (is_space c) && no_space s'
  end.

(** A place where a token can start: the start of the text or just after a
    whitespace character; and one where it can end: the end of the text or
    just before a whitespace character. *)
Fixpoint left_edge (pre : string) : bool :=
  match pre with
  | EmptyString => true
  | String c rest => if is_empty rest then is_space c else left_edge rest
  end.

Definition right_edge (post : string) : bool :=
  match post with
  | EmptyString => true
  | String c _ => is_space c
  end.

(** [word] is a whitespace-delimited token of [text]: a non-empty piece
    without whitespace that can be extended on neither side. *)
Definition token_of (text word : string) : Prop :=
  exists pre post,
    text = pre ++ word ++ post /\
    is_empty word = false /\ no_space word = true /\
    left_edge pre = true /\ right_edge post = true.

(** The recipes of a collection a keyword list selects, and the collection
    obtained by storing entries one after the other. *)
Definition selects (keywords : list value) (recipe : value) : result bool :=
  text <- search_text recipe ;;
  matched <- matched_keywords text keywords [] ;;
  Ok (match matched with [] => false | _ :: _ => true end).

Definition selected (keywords : list value) (item : key * value) : bool :=
  match selects keywords (snd item) with
  | Ok b => b
  | Raise _ => false
  end.

(** The result of one round of the filter loop, and of the whole loop, with
    the printing left out. *)
Definition filter_step (keywords : list value) (st : dict * nat)
  (item : key * value) : result (dict * nat) :=
  b <- selects keywords (snd item) ;;
  Ok (if b then (dict_set (fst st) (fst item) (snd item), S (snd st)) else st).

Fixpoint filter_steps (keywords : list value) (items : list (key * value))
  (st : dict * nat) : result (dict * nat) :=
  match items with
  | [] => Ok st
  | item :: items' =>
      st' <- filter_step keywords st item ;; filter_steps keywords items' st'
  end.

Definition store_all (items : list (key * value)) (d : dict) : dict :=
  fold_left (fun acc item => dict_set acc (fst item) (snd item)) items d.

(** ** Sample data *)

Definition sample_recipe (name summary description : string) : value :=
  VDict [(KStr "about", VDict [(KStr "summary", VStr summary);
                               (KStr "description", VStr description)]);
         (KStr "package", VDict [(KStr "name", VStr name);
                                 (KStr "version", VStr "1.0")])].

(** The fixture of [tests/test_collect_bioconda_recipies.py]. *)
Definition sample_conda : dict :=
  [(KStr "pkg1",
    sample_recipe "pkg1" "Analysis of 16S rRNA microbial communities"
      "This tool profiles microbial diversity in metagenomics studies");
   (KStr "pkg2",
    sample_recipe "pkg2" "A completely unrelated package" "bla");
   (KStr "pkg3",
    sample_recipe "pkg3" "Metagenome assembly pipeline"
      "Assembles metagenomic reads into contigs")].

Definition recipe_pkg3 : value :=
  sample_recipe "pkg3" "Metagenome assembly pipeline"
    "Assembles metagenomic reads into contigs".

Definition sample_keywords : list string := ["microbiome"; "16S"; "metagenom*"].

(** A recipe whose description and summary read differently in the two
    orders. *)
Definition recipe_asm : value :=
  VDict [(KStr "package", VDict [(KStr "name", VStr "asm")]);
         (KStr "about", VDict [(KStr "summary", VStr "assembly");
                               (KStr "description", VStr "Genome")])].

(** A small file tree: directories, the [meta.yaml] files below them with
    their text, and the document each text parses to.  The texts hold no
    template syntax, so rendering leaves them as they are. *)
Definition nl : string := String (ascii_of_nat 10) EmptyString.

Definition text_pkg1 : string :=
  "package:" ++ nl ++ "  name: pkg1" ++ nl ++
  "about:" ++ nl ++ "  summary: Analysis of 16S rRNA microbial communities" ++ nl.
Definition doc_pkg1 : value :=
  VDict [(KStr "package", VDict [(KStr "name", VStr "pkg1")]);
         (KStr "about",
          VDict [(KStr "summary", VStr "Analysis of 16S rRNA microbial communities")])].

Definition text_pkg2 : string :=
  "package:" ++ nl ++ "  name: pkg2" ++ nl ++
  "about:" ++ nl ++ "  summary: A completely unrelated package" ++ nl.
Definition doc_pkg2 : value :=
  VDict [(KStr "package", VDict [(KStr "name", VStr "pkg2")]);
         (KStr "about", VDict [(KStr "summary", VStr "A completely unrelated package")])].

(** A recipe whose name is the empty string. *)
Definition text_anon : string :=
  "package:" ++ nl ++ "  name: ''" ++ nl ++
  "about:" ++ nl ++ "  summary: 16S amplicon tools" ++ nl.
Definition doc_anon : value :=
  VDict [(KStr "package", VDict [(KStr "name", VStr EmptyString)]);
         (KStr "about", VDict [(KStr "summary", VStr "16S amplicon tools")])].

(** A recipe whose [package] section is there but empty. *)
Definition text_hollow : string :=
  "package:" ++ nl ++ "about:" ++ nl ++ "  summary: nothing" ++ nl.
Definition doc_hollow : value :=
  VDict [(KStr "package", VNone);
         (KStr "about", VDict [(KStr "summary", VStr "nothing")])].

Definition demo_tree : list (string * list (string * string)) :=
  [("recipes", [("recipes/pkg1/meta.yaml", text_pkg1);
                ("recipes/pkg2/meta.yaml", text_pkg2)]);
   ("anon", [("anon/a/meta.yaml", text_anon)]);
   ("hollow", [("hollow/pkg1/meta.yaml", text_pkg1);
               ("hollow/x/meta.yaml", text_hollow)])].

Definition demo_yaml : list (string * value) :=
  [(text_pkg1, doc_pkg1); (text_pkg2, doc_pkg2);
   (text_anon, doc_anon); (text_hollow, doc_hollow);
   ("keywords", VStr "keywords");
   ("keywords: [microbiome, 16S]", VDict [(KStr "keywords", VList [VStr "microbiome"; VStr "16S"])])].

Fixpoint assoc {A : Type} (l : list (string * A)) (s : string) : option A :=
  match l with
  | [] => None
  | (s', a) :: l' => if String.eqb s' s then Some a else assoc l' s
  end.

Definition demo_glob (directory : string) : list string :=
  match assoc demo_tree directory with
  | Some files => map fst files
  | None => []
  end.

Definition demo_read (p : string) : option string :=
  match p with
  | "keywords.txt" => Some "keywords"
  | "keywords.yaml" => Some "keywords: [microbiome, 16S]"
  | _ => assoc (concat (map snd demo_tree)) p
  end.

Definition demo_render (text : string) : option string := Some text.

Definition demo_load (text : string) : option value := assoc demo_yaml text.

Definition demo : externals :=
  {| glob_meta := demo_glob; read_text := demo_read;
     render := demo_render; safe_load := demo_load |}.


(** ** Export and main program *)

(** What a whole run prints: the lines of the loader and the filter, and the
    confirmation of line 117. *)
Inductive report : Type :=
| Stdout (l : line)
| WrittenTo (output_file : string).

(** What the export leaves in a file: the complete JSON text of a
    collection, named by the collection, or, when [json.dump] raised after
    the file was opened for writing, an emptied file with at most a part of
    the text. *)
Inductive written : Type :=
| Dumped (filtered_conda : dict)
| Broken.

(** The end of a run: what was printed, the files written and how it
    ended. *)
Record run : Type := {
  run_out : list report;
  run_files : list (string * written);
  run_end : result unit
}.

(** Lines 114-117.  [can_open] tells whether [open(output_file, "w")]
    succeeds; [dump_error] gives the exception [json.dump] raises on a
    collection, if any (a value it cannot write, a circular reference).
    Opening creates or empties the file before anything is dumped. *)
Definition save_filtered_conda_to_json (can_open : string -> bool)
  (dump_error : dict -> option exn)
  (filtered_conda : dict) (output_file : string) : run :=
  if can_open output_file
  then match dump_error filtered_conda with
       | None =>
           {| run_out := [WrittenTo output_file];
              run_files := [(output_file, Dumped filtered_conda)];
              run_end := Ok tt |}
       | Some e =>
           {| run_out := [];
              run_files := [(output_file, Broken)];
              run_end := Raise e |}
       end
  else {| run_out := []; run_files := []; run_end := Raise OSError |}.

(** Lines 164-167, on the three parsed arguments. *)
Definition main (ext : externals) (can_open : string -> bool)
  (dump_error : dict -> option exn)
  (bioconda_path keywords_file output_file : string) : run :=
  match (keywords <~ load_keywords_from_yaml ext keywords_file ;;
         conda <~ lift (parse_bioconda ext bioconda_path) ;;
         filter_conda_by_keywords conda keywords true) [] with
  | (out, Ok conda_filtered) =>
      let saved :=
        save_filtered_conda_to_json can_open dump_error conda_filtered output_file in
      {| run_out := (map Stdout out ++ run_out saved)%list;
         run_files := run_files saved;
         run_end := run_end saved |}
  | (out, Raise e) =>
      {| run_out := map Stdout out; run_files := []; run_end := Raise e |}
  end.

(** ** Further notions used in the statements *)

(** A text of whitespace only. *)
Fixpoint blank (s : string) : bool :=
  match s with
  | EmptyString => true
  | String c s' => is_space c && blank s'
  end.

(** The entry a matched file contributes to the collection. *)
Definition recipe_entry (ext : externals) (p : string) : option (key * value) :=
  match document ext p with
  | Ok conda =>
      match name_key conda with
      | Some k => Some (k, conda)
      | None => None
      end
  | Raise _ => None
  end.

(** The keywords of a list that hit the text of a recipe. *)
Definition matched_of (kws : list string) (recipe : value) : list value :=
  match search_text recipe with
  | Ok text => map VStr (filter (fun kw => keyword_hit text (lower kw)) kws)
  | Raise _ => []
  end.

(** The line printed for a kept entry. *)
Definition match_line (kws : list string) (item : key * value) : line :=
  MatchFound (fst item) (matched_of kws (snd item)).

(** A recipe whose [about] section is there but empty, and one whose name
    is a list. *)
Definition doc_no_about : value :=
  VDict [(KStr "package", VDict [(KStr "name", VStr "bare")]);
         (KStr "about", VNone)].

Definition doc_list_name : value :=
  VDict [(KStr "package", VDict [(KStr "name", VList [VStr "a"; VStr "b"])])].

(** A second file tree, with files that cannot be read, rendered or parsed
    and a name that cannot be hashed. *)
Definition text_list_name : string :=
  "package:" ++ nl ++ "  name: [a, b]" ++ nl.

Definition faulty_files : list (string * list string) :=
  [("unreadable", ["unreadable/pkg1/meta.yaml"; "unreadable/gone/meta.yaml"]);
   ("unrendered", ["unrendered/pkg1/meta.yaml"; "unrendered/t/meta.yaml"]);
   ("unparsed", ["unparsed/pkg1/meta.yaml"; "unparsed/y/meta.yaml"]);
   ("listname", ["listname/pkg1/meta.yaml"; "listname/l/meta.yaml"]);
   ("good", ["good/pkg1/meta.yaml"; "good/pkg2/meta.yaml"])].

Definition faulty_read (p : string) : option string :=
  match p with
  | "unreadable/pkg1/meta.yaml" | "unrendered/pkg1/meta.yaml"
  | "unparsed/pkg1/meta.yaml" | "listname/pkg1/meta.yaml"
  | "good/pkg1/meta.yaml" => Some text_pkg1
  | "good/pkg2/meta.yaml" => Some text_pkg2
  | "unrendered/t/meta.yaml" => Some "{% if %}"
  | "unparsed/y/meta.yaml" => Some "package: [name"
  | "listname/l/meta.yaml" => Some text_list_name
  | "keywords.yaml" => Some "keywords: [microbiome, 16S]"
  | "numbers.yaml" => Some "keywords: [16]"
  | "empty.yaml" => Some EmptyString
  | _ => None
  end.

Definition faulty_render (text : string) : option string :=
  if String.eqb text "{% if %}" then None else Some text.

Definition faulty_load (text : string) : option value :=
  if String.eqb text text_pkg1 then Some doc_pkg1
  else if String.eqb text text_pkg2 then Some doc_pkg2
  else if String.eqb text text_list_name then Some doc_list_name
  else if String.eqb text "keywords: [microbiome, 16S]"
  then Some (VDict [(KStr "keywords", VList [VStr "microbiome"; VStr "16S"])])
  else if String.eqb text "keywords: [16]"
  then Some (VDict [(KStr "keywords", VList [VInt 16])])
  else if String.eqb text EmptyString then Some VNone
  else None.

Definition faulty : externals :=
  {| glob_meta := fun directory =>
       match assoc faulty_files directory with
       | Some paths => paths
       | None => []
       end;
     read_text := faulty_read;
     render := faulty_render;
     safe_load := faulty_load |}.

Definition writable (output_file : string) : bool :=
  String.eqb output_file "out.json".

(** Every collection can be dumped; no collection can. *)
Definition dumps (filtered_conda : dict) : option exn := None.

Definition dump_fails (filtered_conda : dict) : option exn :=
  Some (TypeError "Object of type date is not JSON serializable").

(** ** Keys and dictionaries *)

Lemma key_beq_eq (a b : key) : key_beq a b = true <-> a = b.
Proof.
  destruct a, b; simpl; split; intro H; try discriminate; try reflexivity.
  - apply Bool.eqb_prop in H. now subst.
  - injection H as ->. apply Bool.eqb_reflx.
  - apply Z.eqb_eq in H. now subst.
  - injection H as ->. apply Z.eqb_refl.
  - apply String.eqb_eq in H. now subst.
  - injection H as ->. apply String.eqb_refl.
Qed.

Lemma key_eqb_norm (a b : key) : key_eqb a b = true <-> key_norm a = key_norm b.
Proof. unfold key_eqb. apply key_beq_eq. Qed.

Lemma key_eqb_refl (a : key) : key_eqb a a = true.
Proof. now apply key_eqb_norm. Qed.

Lemma key_eqb_sym (a b : key) : key_eqb a b = key_eqb b a.
Proof.
  destruct (key_eqb a b) eqn:E, (key_eqb b a) eqn:F; try reflexivity.
  - apply key_eqb_norm in E. symmetry in E. apply key_eqb_norm in E. congruence.
  - apply key_eqb_norm in F. symmetry in F. apply key_eqb_norm in F. congruence.
Qed.

Lemma key_eqb_trans (a b c : key) :
  key_eqb a b = true -> key_eqb b c = true -> key_eqb a c = true.
Proof. rewrite !key_eqb_norm. congruence. Qed.

(** Equal keys are looked up alike. *)
Lemma key_eqb_compat (a b c : key) :
  key_eqb a b = true -> key_eqb a c = key_eqb b c.
Proof.
  intro H. destruct (key_eqb b c) eqn:E.
  - eapply key_eqb_trans; eassumption.
  - destruct (key_eqb a c) eqn:F; [|reflexivity].
    rewrite key_eqb_sym in H. now rewrite (key_eqb_trans _ _ _ H F) in E.
Qed.

(** A key equal to a string key is that string key. *)
Lemma key_eqb_str (k : key) (s : string) : key_eqb k (KStr s) = true -> k = KStr s.
Proof.
  intro H. apply key_eqb_norm in H. destruct k; simpl in H; congruence.
Qed.

Lemma dict_get_compat (d : dict) (a b : key) :
  key_eqb a b = true -> dict_get d a = dict_get d b.
Proof.
  intro H. induction d as [|[k v] d IH]; simpl; [reflexivity|].
  rewrite (key_eqb_sym k a), (key_eqb_sym k b), (key_eqb_compat _ _ _ H), IH.
  reflexivity.
Qed.

Lemma dict_get_set (d : dict) (k k' : key) (v : value) :
  dict_get (dict_set d k v) k' =
  if key_eqb k k' then Some v else dict_get d k'.
Proof.
  induction d as [|[k0 v0] d IH]; simpl.
  - reflexivity.
  - destruct (key_eqb k0 k) eqn:E; simpl.
    + rewrite (key_eqb_compat _ _ _ E). now destruct (key_eqb k k').
    + rewrite IH. destruct (key_eqb k0 k') eqn:F; [|reflexivity].
      destruct (key_eqb k k') eqn:G; [|reflexivity].
      rewrite key_eqb_sym in G. now rewrite (key_eqb_trans _ _ _ F G) in E.
Qed.

Lemma dict_has_set (d : dict) (k k' : key) (v : value) :
  dict_has (dict_set d k v) k' = key_eqb k k' || dict_has d k'.
Proof. unfold dict_has. rewrite dict_get_set. now destruct (key_eqb k k'). Qed.

Lemma dict_get_In (d : dict) (k : key) (v : value) :
  dict_get d k = Some v -> exists k', In (k', v) d /\ key_eqb k' k = true.
Proof.
  induction d as [|[k0 v0] d IH]; simpl; [discriminate|].
  destruct (key_eqb k0 k) eqn:E.
  - intros [= ->]. exists k0. auto.
  - intro H. destruct (IH H) as (k' & Hin & Hk). exists k'. auto.
Qed.

Lemma In_dict_has (d : dict) (k : key) (v : value) :
  In (k, v) d -> dict_has d k = true.
Proof.
  unfold dict_has. induction d as [|[k0 v0] d IH]; simpl; [easy|].
  intros [[= -> ->]|H].
  - now rewrite key_eqb_refl.
  - destruct (key_eqb k0 k); [reflexivity|auto].
Qed.

(** In a well-formed dict an entry is what its key looks up. *)
Lemma In_dict_get (d : dict) (k : key) (v : value) :
  dict_wf d = true -> In (k, v) d -> dict_get d k = Some v.
Proof.
  induction d as [|[k0 v0] d IH]; simpl; [easy|].
  intros Hwf [[= -> ->]|H]; apply andb_prop in Hwf as [Hk Hwf].
  - now rewrite key_eqb_refl.
  - destruct (key_eqb k0 k) eqn:E; [|auto].
    apply In_dict_has in H. unfold dict_has in *.
    rewrite (dict_get_compat d _ _ E) in Hk. now destruct (dict_get d k).
Qed.

Lemma dict_set_wf (d : dict) (k : key) (v : value) :
  dict_wf d = true -> dict_wf (dict_set d k v) = true.
Proof.
  induction d as [|[k0 v0] d IH]; simpl; [reflexivity|].
  intro H. apply andb_prop in H as [Hk Hwf].
  destruct (key_eqb k0 k) eqn:E; simpl.
  - now rewrite Hk, Hwf.
  - rewrite dict_has_set, (key_eqb_sym k k0), E, IH by assumption.
    simpl. now rewrite Hk.
Qed.

(** What a store leaves in the dict: the old entries under other keys, and
    the stored value under a key equal to the one given. *)
Lemma In_dict_set (d : dict) (k k' : key) (v v' : value) :
  In (k', v') (dict_set d k v) ->
  In (k', v') d \/ (v' = v /\ key_eqb k' k = true).
Proof.
  induction d as [|[k0 v0] d IH]; simpl.
  - intros [[= -> ->]|[]]. right. now rewrite key_eqb_refl.
  - destruct (key_eqb k0 k) eqn:E; simpl.
    + intros [[= <- <-]|H]; auto.
    + intros [H|H]; auto. destruct (IH H) as [?|?]; auto.
Qed.

Lemma dict_set_fresh (d : dict) (k : key) (v : value) :
  dict_has d k = false -> dict_set d k v = (d ++ [(k, v)])%list.
Proof.
  unfold dict_has. induction d as [|[k0 v0] d IH]; simpl; [reflexivity|].
  destruct (key_eqb k0 k); [discriminate|]. intro H. now rewrite IH.
Qed.

Lemma dict_has_app (d d' : dict) (k : key) :
  dict_has (d ++ d')%list k = dict_has d k || dict_has d' k.
Proof.
  unfold dict_has. induction d as [|[k0 v0] d IH]; simpl; [now destruct (dict_get d' k)|].
  now destruct (key_eqb k0 k).
Qed.

Lemma dict_wf_app (d d' : dict) :
  dict_wf (d ++ d')%list = true ->
  dict_wf d = true /\ dict_wf d' = true /\
  forall k v, In (k, v) d' -> dict_has d k = false.
Proof.
  induction d as [|[k0 v0] d IH]; simpl.
  - auto.
  - intro H. apply andb_prop in H as [Hk Hwf]. rewrite dict_has_app in Hk.
    apply negb_true_iff, orb_false_elim in Hk as [Hk1 Hk2].
    destruct (IH Hwf) as (Hd & Hd' & Hfresh). rewrite Hk1, Hd. repeat split; auto.
    intros k v Hin. unfold dict_has. simpl.
    destruct (key_eqb k0 k) eqn:E.
    + apply In_dict_has in Hin. unfold dict_has in *.
      rewrite <- (dict_get_compat d' _ _ E) in Hin.
      now destruct (dict_get d' k0).
    + apply (Hfresh k v Hin).
Qed.

(** Storing the entries of a well-formed dict one by one builds that dict. *)
Lemma store_all_app (items : list (key * value)) (d : dict) :
  dict_wf (d ++ items)%list = true -> store_all items d = (d ++ items)%list.
Proof.
  revert d. induction items as [|[k v] items IH]; intros d Hwf; simpl.
  - now rewrite app_nil_r.
  - unfold store_all in *. simpl.
    assert (Hk : dict_has d k = false).
    { destruct (dict_wf_app _ _ Hwf) as (_ & _ & H). apply (H k v). now left. }
    rewrite (dict_set_fresh _ _ _ Hk).
    replace (d ++ (k, v) :: items)%list with ((d ++ [(k, v)]) ++ items)%list in *
      by now rewrite <- app_assoc.
    now apply IH.
Qed.

Lemma store_all_wf (items : list (key * value)) (d : dict) :
  dict_wf d = true -> dict_wf (store_all items d) = true.
Proof.
  revert d. induction items as [|[k v] items IH]; intros d H; [assumption|].
  apply IH. now apply dict_set_wf.
Qed.

Lemma store_all_In (items : list (key * value)) (d : dict) (k : key) (v : value) :
  In (k, v) (store_all items d) ->
  In (k, v) d \/ exists k', In (k', v) items /\ key_eqb k k' = true.
Proof.
  revert d. induction items as [|[k0 v0] items IH]; intros d H; [now left|].
  apply IH in H as [H|(k' & H & E)].
  - apply In_dict_set in H as [H|[-> E]]; [now left|].
    right. exists k0. split; [now left|assumption].
  - right. exists k'. split; [now right|assumption].
Qed.

Lemma filter_wf (f : key * value -> bool) (d : dict) :
  dict_wf d = true -> dict_wf (filter f d) = true.
Proof.
  induction d as [|[k v] d IH]; simpl; [reflexivity|].
  intro H. apply andb_prop in H as [Hk Hwf].
  assert (Hsub : dict_has (filter f d) k = false).
  { destruct (dict_has (filter f d) k) eqn:E; [|reflexivity].
    unfold dict_has in E. destruct (dict_get (filter f d) k) as [w|] eqn:G; [|discriminate].
    apply dict_get_In in G as (k' & Hin & Hk').
    apply filter_In in Hin as [Hin _]. apply In_dict_has in Hin.
    unfold dict_has in Hin, Hk. rewrite (dict_get_compat d _ _ Hk') in Hin.
    now destruct (dict_get d k). }
  destruct (f (k, v)); simpl; [rewrite Hsub|]; auto.
Qed.

(** ** Strings *)

#[local] Arguments Ascii.eqb : simpl never.

Lemma ascii_eqb_eq (a b : ascii) : Ascii.eqb a b = true <-> a = b.
Proof. apply Ascii.eqb_eq. Qed.

Lemma app_empty_r (s : string) : s ++ EmptyString = s.
Proof. induction s as [|c s IH]; simpl; [reflexivity|now rewrite IH]. Qed.

Lemma app_assoc_str (a b c : string) : (a ++ b) ++ c = a ++ b ++ c.
Proof. induction a as [|x a IH]; simpl; [reflexivity|now rewrite IH]. Qed.

Lemma lower_app (a b : string) : lower (a ++ b) = lower a ++ lower b.
Proof. induction a as [|x a IH]; simpl; [reflexivity|now rewrite IH]. Qed.

(** Lower-casing neither makes nor removes a star. *)
Lemma lower_char_star (c : ascii) :
  Ascii.eqb (lower_char c) "*" = Ascii.eqb c "*".
Proof. destruct c as [[] [] [] [] [] [] [] []]; reflexivity. Qed.

Lemma str_in_star_lower (kw : string) : str_in "*" (lower kw) = str_in "*" kw.
Proof.
  induction kw as [|c kw IH]; simpl; [reflexivity|].
  rewrite IH, (Ascii.eqb_sym "*"), lower_char_star, (Ascii.eqb_sym c).
  reflexivity.
Qed.

Lemma startswith_spec (s p : string) :
  startswith s p = true <-> exists post, s = p ++ post.
Proof.
  revert s. induction p as [|a p IH]; intros s; simpl.
  - split; [intros _; now exists s|reflexivity].
  - destruct s as [|b s]; simpl.
    + split; [discriminate|intros [post H]; discriminate].
    + rewrite andb_true_iff, ascii_eqb_eq, IH. split.
      * intros [-> [post ->]]. now exists post.
      * intros [post [= -> ->]]. split; [reflexivity|now exists post].
Qed.

(** [sub in s] holds exactly when [sub] lies somewhere inside [s]. *)
Lemma str_in_spec (sub s : string) :
  str_in sub s = true <-> exists pre post, s = pre ++ sub ++ post.
Proof.
  induction s as [|c s IH].
  - simpl. rewrite orb_false_r, startswith_spec. split.
    + intros [post H]. now exists EmptyString, post.
    + intros ([|x pre] & post & H); [now exists post|discriminate].
  - cbn [str_in]. rewrite orb_true_iff, startswith_spec, IH. split.
    + intros [[post H]|(pre & post & ->)].
      * now exists EmptyString, post.
      * now exists (String c pre), post.
    + intros ([|x pre] & post & H).
      * left. now exists post.
      * right. injection H as -> ->. now exists pre, post.
Qed.

Lemma str_in_empty (s : string) : str_in EmptyString s = true.
Proof. destruct s; reflexivity. Qed.

Lemma no_space_app (a b : string) :
  no_space (a ++ b) = no_space a && no_space b.
Proof.
  induction a as [|x a IH]; simpl; [reflexivity|].
  now rewrite IH, andb_assoc.
Qed.

Lemma is_empty_app (a b : string) : is_empty (a ++ b) = is_empty a && is_empty b.
Proof. now destruct a. Qed.

(** Every token [split] returns is a non-empty, whitespace-free piece of the
    text. *)
Lemma split_ws_tokens (s word w : string) :
  no_space word = true ->
  In w (split_ws s word) ->
  is_empty w = false /\ no_space w = true /\
  exists pre post, word ++ s = pre ++ w ++ post.
Proof.
  revert word. induction s as [|c s IH]; intros word Hword; simpl.
  - destruct (is_empty word) eqn:E; [easy|].
    intros [<-|[]]. repeat split; auto. now exists EmptyString, EmptyString.
  - destruct (is_space c) eqn:Hc.
    + assert (Hrest : In w (split_ws s EmptyString) ->
                      is_empty w = false /\ no_space w = true /\
                      exists pre post, word ++ String c s = pre ++ w ++ post).
      { intro H. destruct (IH EmptyString eq_refl H) as (H1 & H2 & pre & post & H3).
        repeat split; auto. simpl in H3. exists (word ++ String c pre), post.
        now rewrite app_assoc_str, H3. }
      destruct (is_empty word) eqn:E; [assumption|].
      intros [<-|H]; [|auto]. repeat split; auto.
      now exists EmptyString, (String c s).
    + intro H. apply IH in H.
      * destruct H as (H1 & H2 & pre & post & H3). repeat split; auto.
        exists pre, post. now rewrite <- H3, app_assoc_str.
      * rewrite no_space_app, Hword. simpl. now rewrite Hc.
Qed.

Lemma split_tokens (s w : string) :
  In w (split s) ->
  is_empty w = false /\ no_space w = true /\ exists pre post, s = pre ++ w ++ post.
Proof. intro H. now apply (split_ws_tokens s EmptyString w). Qed.

(** ** Patterns *)

Lemma translate_plain (p rest : string) :
  plain p = true ->
  translate_from 0 (p ++ rest) = (literals p ++ translate_from 0 rest)%list.
Proof.
  induction p as [|c p IH]; simpl; [reflexivity|].
  intro H. apply andb_prop in H as [H Hp]. apply andb_prop in H as [H H3].
  apply andb_prop in H as [H1 H2].
  apply negb_true_iff in H1, H2, H3. rewrite H1, H2, H3, IH by assumption.
  reflexivity.
Qed.

Lemma translate_plain_only (p : string) :
  plain p = true -> translate p = literals p.
Proof.
  intro H. unfold translate.
  rewrite <- (app_empty_r p) at 1. rewrite translate_plain by assumption.
  simpl. now rewrite app_nil_r.
Qed.

Lemma glob_match_literals (p : string) (items : list glob_item) (w : string) :
  glob_match (literals p ++ items) w = true <->
  exists w', w = p ++ w' /\ glob_match items w' = true.
Proof.
  revert w. induction p as [|c p IH]; intros w; simpl.
  - split; [intro H; now exists w|now intros (w' & -> & H)].
  - destruct w as [|x w].
    + split; [discriminate|now intros (w' & H & _)].
    + rewrite andb_true_iff, ascii_eqb_eq, IH. split.
      * intros [-> (w' & -> & H)]. now exists w'.
      * intros (w' & [= -> ->] & H). split; [reflexivity|now exists w'].
Qed.

Lemma glob_match_star (items : list glob_item) (w : string) :
  glob_match (GStar :: items) w = true <->
  exists run w', w = run ++ w' /\ glob_match items w' = true.
Proof.
  induction w as [|c w IH].
  - simpl. rewrite orb_false_r. split.
    + intro H. now exists EmptyString, EmptyString.
    + intros ([|x run] & w' & H & Hm); [simpl in H; now subst|discriminate].
  - change (glob_match (GStar :: items) (String c w))
      with (glob_match items (String c w) || glob_match (GStar :: items) w).
    rewrite orb_true_iff, IH. split.
    + intros [H|(run & w' & -> & H)].
      * now exists EmptyString, (String c w).
      * now exists (String c run), w'.
    + intros ([|x run] & w' & H & Hm).
      * left. simpl in H. now subst.
      * right. injection H as -> ->. now exists run, w'.
Qed.

Lemma glob_match_literals_only (p w : string) :
  glob_match (literals p) w = true <-> w = p.
Proof.
  rewrite <- (app_nil_r (literals p)), glob_match_literals. split.
  - intros (w' & -> & H). destruct w'; [now rewrite app_empty_r|discriminate].
  - intros ->. exists EmptyString. now rewrite app_empty_r.
Qed.

(** In a pattern with one star between two literal parts, the star stands
    for any run of characters, the empty one included. *)
Lemma fnmatch_star (p q w : string) :
  plain p = true -> plain q = true ->
  fnmatch w (p ++ "*" ++ q) = true <-> exists run, w = p ++ run ++ q.
Proof.
  intros Hp Hq. unfold fnmatch, translate.
  rewrite translate_plain by assumption. simpl.
  fold (translate q). rewrite translate_plain_only by assumption.
  rewrite glob_match_literals. split.
  - intros (w' & -> & H). apply glob_match_star in H as (run & w'' & -> & H).
    apply glob_match_literals_only in H as ->. now exists run.
  - intros [run ->]. exists (run ++ q). split; [reflexivity|].
    apply glob_match_star. exists run, q. split; [reflexivity|].
    now apply glob_match_literals_only.
Qed.

(** ** Tokens *)

Lemma split_ws_nil (s word : string) :
  split_ws s word = [] <-> is_empty word = true /\ blank s = true.
Proof.
  revert word. induction s as [|c s IH]; intros word; simpl.
  - destruct (is_empty word); split; intro H; try easy; now destruct H.
  - destruct (is_space c) eqn:Hc; simpl.
    + destruct (is_empty word) eqn:Hw.
      * rewrite IH. simpl. tauto.
      * split; intro H; [discriminate|now destruct H].
    + rewrite IH, is_empty_app. simpl. rewrite andb_false_r.
      split; intro H; now destruct H.
Qed.

Lemma app_eq_app_str (a b c d : string) :
  a ++ b = c ++ d ->
  (exists r, c = a ++ r /\ b = r ++ d) \/ (exists r, a = c ++ r /\ d = r ++ b).
Proof.
  revert c. induction a as [|x a IH]; intros c H.
  - left. now exists c.
  - destruct c as [|y c].
    + right. now exists (String x a).
    + simpl in H. injection H as -> H. destruct (IH c H) as [[r [-> ->]]|[r [-> ->]]].
      * left. now exists r.
      * right. now exists r.
Qed.

Lemma left_edge_app (a b : string) :
  is_empty b = false -> left_edge (a ++ b) = left_edge b.
Proof.
  intro Hb. induction a as [|x a IH]; [reflexivity|].
  simpl. rewrite is_empty_app, Hb, andb_false_r. exact IH.
Qed.

Lemma left_edge_after_space (a pre : string) (c : ascii) :
  is_space c = true -> left_edge pre = true ->
  left_edge (a ++ String c pre) = true.
Proof.
  intros Hc Hpre. rewrite left_edge_app by reflexivity.
  simpl. destruct pre; simpl in *; [exact Hc|exact Hpre].
Qed.

Lemma left_edge_before (a pre : string) (c : ascii) :
  left_edge (a ++ String c pre) = true -> left_edge pre = true.
Proof.
  rewrite left_edge_app by reflexivity. simpl.
  destruct pre; [reflexivity|]. now simpl.
Qed.

Lemma no_space_left_edge (a : string) :
  no_space a = true -> left_edge a = true -> a = EmptyString.
Proof.
  induction a as [|x a IH]; [reflexivity|]. simpl.
  intros H He. apply andb_prop in H as [Hx Ha].
  destruct a as [|y a]; simpl in He.
  - rewrite He in Hx. discriminate.
  - specialize (IH Ha He). discriminate.
Qed.

Lemma no_space_right_edge (a : string) :
  no_space a = true -> right_edge a = true -> a = EmptyString.
Proof.
  destruct a as [|x a]; [reflexivity|]. simpl.
  intros H He. rewrite He in H. discriminate.
Qed.

(** The token being read followed by whitespace: the tokens of the whole
    are that token and the tokens of what follows the whitespace. *)
Lemma token_of_space (word s w : string) (c : ascii) :
  no_space word = true -> is_space c = true ->
  token_of (word ++ String c s) w <->
  (w = word /\ is_empty word = false) \/ token_of s w.
Proof.
  intros Hword Hc. split.
  - intros (pre & post & H & Hne & Hns & Hl & Hr).
    apply app_eq_app_str in H as [[r [-> H]]|[r [-> H]]].
    + destruct r as [|x r].
      * rewrite app_empty_r in Hl.
        rewrite (no_space_left_edge word Hword Hl) in *.
        destruct w as [|y w]; [discriminate|]. simpl in H. injection H as <- _.
        simpl in Hns. rewrite Hc in Hns. discriminate.
      * simpl in H. injection H as <- ->. right.
        exists r, post. repeat split; auto.
        now apply (left_edge_before word r c).
    + rewrite no_space_app in Hword. apply andb_prop in Hword as [Hpre Hr0].
      rewrite (no_space_left_edge pre Hpre Hl) in *. simpl in *.
      symmetry in H. apply app_eq_app_str in H as [[r2 [-> H]]|[r2 [-> H]]].
      * destruct r2 as [|y r2].
        -- left. rewrite app_empty_r in *. auto.
        -- simpl in H. injection H as <- _.
           rewrite no_space_app in Hns. apply andb_prop in Hns as [_ Hns].
           simpl in Hns. rewrite Hc in Hns. discriminate.
      * destruct r2 as [|y r2].
        -- left. rewrite app_empty_r in *. auto.
        -- subst post. simpl in Hr.
           rewrite no_space_app in Hr0. apply andb_prop in Hr0 as [_ Hr0].
           simpl in Hr0. rewrite Hr in Hr0. discriminate.
  - intros [[-> Hne]|(pre & post & -> & Hne & Hns & Hl & Hr)].
    + exists EmptyString, (String c s). repeat split; auto.
    + exists (word ++ String c pre), post. repeat split; auto.
      * now rewrite app_assoc_str.
      * now apply left_edge_after_space.
Qed.

Lemma token_of_end (word w : string) :
  no_space word = true ->
  token_of word w <-> (w = word /\ is_empty word = false).
Proof.
  intro Hword. split.
  - intros (pre & post & -> & Hne & Hns & Hl & Hr).
    rewrite !no_space_app in Hword. apply andb_prop in Hword as [Hpre H].
    apply andb_prop in H as [_ Hpost].
    rewrite (no_space_left_edge pre Hpre Hl), (no_space_right_edge post Hpost Hr).
    simpl. rewrite app_empty_r. auto.
  - intros [-> Hne]. exists EmptyString, EmptyString.
    simpl. rewrite app_empty_r. auto.
Qed.

(** What [split] returns are exactly the whitespace-delimited tokens. *)
Lemma split_ws_token_of (s word w : string) :
  no_space word = true ->
  In w (split_ws s word) <-> token_of (word ++ s) w.
Proof.
  revert word. induction s as [|c s IH]; intros word Hword.
  - rewrite app_empty_r, (token_of_end word w Hword). simpl.
    destruct (is_empty word); simpl; intuition congruence.
  - simpl. destruct (is_space c) eqn:Hc.
    + rewrite (token_of_space word s w c Hword Hc).
      pose proof (IH EmptyString eq_refl) as IH0. simpl in IH0.
      destruct (is_empty word); simpl; rewrite IH0; intuition congruence.
    + rewrite IH, app_assoc_str; [reflexivity|].
      rewrite no_space_app, Hword. simpl. now rewrite Hc.
Qed.

Lemma split_token_of (text w : string) : In w (split text) <-> token_of text w.
Proof. apply (split_ws_token_of text EmptyString w). reflexivity. Qed.

Lemma split_ws_blank_prefix (pre s : string) :
  blank pre = true -> split_ws (pre ++ s) EmptyString = split_ws s EmptyString.
Proof.
  induction pre as [|c pre IH]; [reflexivity|]. simpl.
  intro H. apply andb_prop in H as [-> H]. simpl. now apply IH.
Qed.

Lemma split_ws_blank_suffix (post word : string) :
  blank post = true -> is_empty word = false -> split_ws post word = [word].
Proof.
  intros Hpost Hword. destruct post as [|c post]; simpl.
  - now rewrite Hword.
  - simpl in Hpost. apply andb_prop in Hpost as [-> Hpost]. rewrite Hword.
    f_equal. apply split_ws_nil. auto.
Qed.

(** ** The keyword filter *)

(** The search text of a recipe of the data model: description, one space,
    summary, lower-cased. *)
Lemma search_text_recipe (recipe : value) (about : dict) (d s : string) :
  about_section recipe = Some about ->
  text_field about "description" = Some d ->
  text_field about "summary" = Some s ->
  search_text recipe = Ok (lower (d ++ " " ++ s)).
Proof.
  unfold about_section, text_field, search_text. intros Ha Hd Hs.
  destruct recipe as [| | | | |r]; try discriminate. cbn [py_get bind].
  assert (Hab : (match dict_get r (KStr "about") with
                 | Some v => Ok v
                 | None => Ok (VDict [])
                 end) = Ok (VDict about)).
  { destruct (dict_get r (KStr "about")) as [[| | | | |a]|]; congruence. }
  rewrite Hab. cbn [py_get bind].
  destruct (dict_get about (KStr "description")) as [[| | |x| |]|];
    try discriminate; injection Hd as <-;
    (destruct (dict_get about (KStr "summary")) as [[| | |y| |]|];
     try discriminate; injection Hs as <-); cbn;
    now rewrite ?app_assoc_str.
Qed.

(** Only recipes of the data model have a search text. *)
Lemma search_text_is_recipe (recipe : value) (text : string) :
  search_text recipe = Ok text -> is_recipe recipe = true.
Proof.
  unfold search_text, is_recipe, about_section, text_field.
  destruct recipe as [| | | | |r]; try discriminate. cbn [py_get bind].
  destruct (dict_get r (KStr "about")) as [[| | | | |a]|]; try discriminate;
    cbn [py_get bind].
  - destruct (dict_get a (KStr "description")) as [[| | |x| |]|];
      try discriminate; cbn [py_add bind py_get];
      destruct (dict_get a (KStr "summary")) as [[| | |y| |]|];
      try discriminate; reflexivity.
  - reflexivity.
Qed.

Lemma is_recipe_search_text (recipe : value) :
  is_recipe recipe = true -> exists text, search_text recipe = Ok text.
Proof.
  unfold is_recipe. intro H.
  destruct (about_section recipe) as [about|] eqn:Ha; [|discriminate].
  destruct (text_field about "description") as [d|] eqn:Hd; [|discriminate].
  destruct (text_field about "summary") as [s|] eqn:Hs; [|discriminate].
  eexists. eapply search_text_recipe; eassumption.
Qed.

(** The keyword loop over string keywords: the matching ones, in order. *)
Lemma matched_keywords_strings (text : string) (kws : list string)
  (matched : list value) :
  matched_keywords text (map VStr kws) matched =
  Ok (matched ++ map VStr (filter (fun kw => keyword_hit text (lower kw)) kws))%list.
Proof.
  revert matched. induction kws as [|kw kws IH]; intros matched; simpl.
  - now rewrite app_nil_r.
  - rewrite IH. destruct (keyword_hit text (lower kw)); simpl;
      [now rewrite <- app_assoc|reflexivity].
Qed.

(** Whatever the keywords are, a keyword is reported only if it is one of
    the list, is a string and hits the text. *)
Lemma matched_keywords_sound (text : string) (keywords matched m : list value)
  (kw : value) :
  matched_keywords text keywords matched = Ok m ->
  In kw m ->
  In kw matched \/
  (In kw keywords /\ exists s, kw = VStr s /\ keyword_hit text (lower s) = true).
Proof.
  revert matched. induction keywords as [|k keywords IH]; intros matched; simpl.
  - intros [= ->]. auto.
  - destruct k as [| | |s| |]; try discriminate. cbn [py_lower bind].
    intros H Hin. destruct (IH _ H Hin) as [Hm|[Hk Hs]].
    + destruct (keyword_hit text (lower s)) eqn:E; [|auto].
      apply in_app_or in Hm as [Hm|[<-|[]]]; [auto|].
      right. split; [now left|]. now exists s.
    + right. split; [now right|assumption].
Qed.

Lemma selects_hit (keywords : list value) (recipe : value) :
  selects keywords recipe = Ok true ->
  exists text s,
    search_text recipe = Ok text /\ In (VStr s) keywords /\
    keyword_hit text (lower s) = true.
Proof.
  unfold selects. destruct (search_text recipe) as [text|] eqn:Ht; [|discriminate].
  cbn [bind]. destruct (matched_keywords text keywords []) as [[|kw m]|] eqn:Hm;
    try discriminate.
  intros _. destruct (matched_keywords_sound _ _ _ _ kw Hm) as [[]|[Hin (s & -> & Hs)]];
    [now left|]. now exists text, s.
Qed.

Lemma selects_strings (kws : list string) (recipe : value) (text : string) :
  search_text recipe = Ok text ->
  selects (map VStr kws) recipe =
  Ok (existsb (fun kw => keyword_hit text (lower kw)) kws).
Proof.
  unfold selects. intros ->. cbn [bind]. rewrite matched_keywords_strings.
  cbn [bind app]. f_equal. induction kws as [|kw kws IH]; [reflexivity|].
  simpl. now destruct (keyword_hit text (lower kw)).
Qed.

(** *** The loop *)

Lemma filter_body_result (keywords : list value) (verbose : bool)
  (st : dict * nat) (item : key * value) (out : list line) :
  snd (filter_body keywords verbose st item out) = filter_step keywords st item.
Proof.
  destruct st as [f n], item as [name recipe].
  unfold filter_body, filter_step, selects, io_bind, lift, io_ret, print. simpl.
  destruct (search_text recipe) as [text|]; [|reflexivity]. cbn [bind].
  destruct (matched_keywords text keywords []) as [[|kw m]|]; try reflexivity.
  now destruct verbose.
Qed.

Lemma filter_body_quiet (keywords : list value) (st : dict * nat)
  (item : key * value) (out : list line) :
  fst (filter_body keywords false st item out) = out.
Proof.
  destruct st as [f n], item as [name recipe].
  unfold filter_body, io_bind, lift, io_ret. simpl.
  destruct (search_text recipe) as [text|]; [|reflexivity].
  now destruct (matched_keywords text keywords []) as [[|kw m]|].
Qed.

Lemma for_each_result (keywords : list value) (verbose : bool)
  (items : list (key * value)) (st : dict * nat) (out : list line) :
  snd (for_each (filter_body keywords verbose) items st out) =
  filter_steps keywords items st.
Proof.
  revert st out. induction items as [|item items IH]; intros st out; simpl.
  - reflexivity.
  - unfold io_bind. rewrite <- (filter_body_result keywords verbose st item out).
    destruct (filter_body keywords verbose st item out) as [out' [st'|e]]; simpl.
    + apply IH.
    + reflexivity.
Qed.

Lemma for_each_quiet (keywords : list value) (items : list (key * value))
  (st : dict * nat) (out : list line) :
  fst (for_each (filter_body keywords false) items st out) = out.
Proof.
  revert st out. induction items as [|item items IH]; intros st out; simpl.
  - reflexivity.
  - unfold io_bind. pose proof (filter_body_quiet keywords st item out) as H.
    destruct (filter_body keywords false st item out) as [out' [st'|e]];
      simpl in H; subst out'; [apply IH|reflexivity].
Qed.

Lemma filter_result (conda : dict) (keywords : list value) (verbose : bool)
  (out : list line) :
  snd (filter_conda_by_keywords conda keywords verbose out) =
  (st <- filter_steps keywords conda ([], 0%nat) ;; Ok (fst st)).
Proof.
  unfold filter_conda_by_keywords, io_bind.
  rewrite <- (for_each_result keywords verbose conda ([], 0%nat) out).
  destruct (for_each (filter_body keywords verbose) conda ([], 0%nat) out)
    as [out' [st|e]]; simpl; [|reflexivity].
  now destruct verbose.
Qed.

(** A loop that ends well has visited recipes of the data model only and has
    stored the selected entries in order. *)
Lemma filter_steps_ok (keywords : list value) (items : list (key * value))
  (st st' : dict * nat) :
  filter_steps keywords items st = Ok st' ->
  (forall item, In item items -> exists b, selects keywords (snd item) = Ok b) /\
  fst st' = store_all (filter (selected keywords) items) (fst st).
Proof.
  revert st. induction items as [|item items IH]; intros st; simpl.
  - intros [= <-]. split; [easy|reflexivity].
  - unfold filter_step, selected.
    destruct (selects keywords (snd item)) as [b|] eqn:Hb; [|discriminate].
    cbn [bind]. intro H. apply IH in H as [Hall Hst]. split.
    + intros it [<-|Hin]; [now exists b|auto].
    + rewrite Hst. now destruct b.
Qed.

Lemma filter_steps_total (keywords : list value) (items : list (key * value))
  (st : dict * nat) :
  (forall item, In item items -> exists b, selects keywords (snd item) = Ok b) ->
  exists n, filter_steps keywords items st =
            Ok (store_all (filter (selected keywords) items) (fst st), n).
Proof.
  revert st. induction items as [|item items IH]; intros [f n] Hall; simpl.
  - now exists n.
  - destruct (Hall item (or_introl eq_refl)) as [b Hb].
    unfold filter_step, selected. rewrite Hb. cbn [bind fst snd].
    destruct (IH (if b then (dict_set f (fst item) (snd item), S n) else (f, n)))
      as [n' Hn']; [intros; apply Hall; now right|].
    exists n'. rewrite Hn'. now destruct b.
Qed.

(** The filter returns when every recipe has a search text and every keyword
    is a string, and then keeps the selected entries. *)
Lemma filter_returns (conda : dict) (kws : list string) (verbose : bool) :
  forallb is_recipe (map snd conda) = true ->
  returned (filter_conda_by_keywords conda (map VStr kws) verbose) =
  Ok (store_all (filter (selected (map VStr kws)) conda) []).
Proof.
  intro H. unfold returned. rewrite filter_result.
  destruct (filter_steps_total (map VStr kws) conda ([], 0%nat)) as [n Hn].
  - intros item Hin. rewrite forallb_forall in H.
    destruct (is_recipe_search_text (snd item)) as [text Ht].
    + apply H, in_map, Hin.
    + eexists. eapply selects_strings. exact Ht.
  - now rewrite Hn.
Qed.

Lemma filter_returned (conda R : dict) (keywords : list value) (verbose : bool) :
  returned (filter_conda_by_keywords conda keywords verbose) = Ok R ->
  R = store_all (filter (selected keywords) conda) [] /\
  forall item, In item conda -> exists b, selects keywords (snd item) = Ok b.
Proof.
  unfold returned. rewrite filter_result.
  destruct (filter_steps keywords conda ([], 0%nat)) as [st|] eqn:E; [|discriminate].
  intros [= <-]. apply filter_steps_ok in E as [Hall Hst]. auto.
Qed.

(** On a well-formed collection the result is the input with the entries
    that are not selected left out. *)
Lemma store_filter_wf (conda : dict) (f : key * value -> bool) :
  dict_wf conda = true -> store_all (filter f conda) [] = filter f conda.
Proof. intro H. apply (store_all_app _ []). simpl. now apply filter_wf. Qed.

Lemma filter_all (f : key * value -> bool) (d : dict) :
  (forall item, In item d -> f item = true) -> filter f d = d.
Proof.
  induction d as [|item d IH]; simpl; [reflexivity|]. intro H.
  rewrite (H item (or_introl eq_refl)), IH; [reflexivity|]. intros; apply H. now right.
Qed.

(** ** The recipe loader *)

Section LoaderFacts.

Variable ext : externals.

(** A round that ends well has stored the document under the key its
    [package.name] makes. *)
Lemma load_recipe_ok (data data' : dict) (p : string) :
  load_recipe ext data p = Ok data' ->
  exists conda k,
    document ext p = Ok conda /\ name_key conda = Some k /\
    data' = dict_set data k conda.
Proof.
  unfold load_recipe, document.
  destruct (render_file ext p) as [rendered|]; [|discriminate].
  cbn [bind].
  destruct (parse_yaml ext p rendered) as [conda|]; [|discriminate].
  cbn [bind].
  destruct (name_missing conda) as [[|]|]; try discriminate. cbn [bind].
  intro H. exists conda. unfold name_key, package_name.
  destruct conda as [| | | | |d]; try discriminate. cbn [py_getitem] in H.
  destruct (dict_get d (KStr "package")) as [package|]; [|discriminate].
  cbn [bind] in H. destruct package as [| | | | |pk]; try discriminate.
  cbn [py_getitem] in H.
  destruct (dict_get pk (KStr "name")) as [name|]; [|discriminate].
  cbn [bind] in H. destruct (to_key name) as [k|]; [|discriminate].
  injection H as <-. now exists k.
Qed.

(** A document without a [package] section, or whose [package] section is
    a mapping without a [name], stops the round with the validation error
    that names the file; so does an empty document. *)
Lemma load_recipe_missing (data : dict) (p : string) (conda : value) :
  document ext p = Ok conda ->
  truthy conda = false \/
  (exists d, conda = VDict d /\
     (dict_get d (KStr "package") = None \/
      exists pk, dict_get d (KStr "package") = Some (VDict pk) /\
                 dict_get pk (KStr "name") = None)) ->
  load_recipe ext data p = Raise (ValueError ("Missing 'package.name' in " ++ p)).
Proof.
  unfold load_recipe, document.
  destruct (render_file ext p) as [rendered|]; [|discriminate].
  cbn [bind]. intros -> H. cbn [bind]. unfold name_missing.
  destruct H as [H|(d & -> & H)].
  - now rewrite H.
  - destruct (truthy (VDict d)); [|reflexivity].
    cbn [negb py_contains py_getitem bind]. unfold dict_has.
    destruct H as [H|(pk & H & Hn)]; rewrite H.
    + reflexivity.
    + cbn [negb py_contains bind]. unfold dict_has. now rewrite Hn.
Qed.

Lemma load_all_app (before after : list string) (data data' : dict) :
  load_all ext (before ++ after)%list data = Ok data' ->
  exists mid, load_all ext before data = Ok mid /\ load_all ext after mid = Ok data'.
Proof.
  revert data. induction before as [|p before IH]; intros data; simpl.
  - intro H. now exists data.
  - destruct (load_recipe ext data p) as [d|]; [|discriminate]. cbn [bind].
    apply IH.
Qed.

Lemma load_all_wf (paths : list string) (data data' : dict) :
  load_all ext paths data = Ok data' -> dict_wf data = true -> dict_wf data' = true.
Proof.
  revert data. induction paths as [|p paths IH]; intros data; simpl.
  - now intros [= <-].
  - destruct (load_recipe ext data p) as [d|] eqn:E; [|discriminate]. cbn [bind].
    intros H Hwf. apply (IH _ H).
    apply load_recipe_ok in E as (conda & k & _ & _ & ->).
    now apply dict_set_wf.
Qed.

(** Every entry of the loaded collection is an entry it started from or
    the document of one of the files, under a key equal to the key that
    document's [package.name] makes. *)
Lemma load_all_entries (paths : list string) (data data' : dict)
  (k : key) (conda : value) :
  load_all ext paths data = Ok data' ->
  In (k, conda) data' ->
  In (k, conda) data \/
  exists p k', In p paths /\ document ext p = Ok conda /\
               name_key conda = Some k' /\ key_eqb k k' = true.
Proof.
  revert data. induction paths as [|p paths IH]; intros data; simpl.
  - intros [= <-]. auto.
  - destruct (load_recipe ext data p) as [d|] eqn:E; [|discriminate]. cbn [bind].
    intros H Hin. destruct (IH _ H Hin) as [Hd|(q & k' & Hq & Hdoc & Hk & Hkk)].
    + apply load_recipe_ok in E as (c & k0 & Hdoc & Hk & ->).
      apply In_dict_set in Hd as [Hd|[-> Hkk]]; [auto|].
      right. exists p, k0. auto.
    + right. exists q, k'. auto.
Qed.

(** Later rounds leave a key alone that none of their documents makes. *)
Lemma load_all_get_other (paths : list string) (data data' : dict) (k : key) :
  load_all ext paths data = Ok data' ->
  (forall q c k', In q paths -> document ext q = Ok c -> name_key c = Some k' ->
                  key_eqb k' k = false) ->
  dict_get data' k = dict_get data k.
Proof.
  revert data. induction paths as [|p paths IH]; intros data; simpl.
  - now intros [= <-].
  - destruct (load_recipe ext data p) as [d|] eqn:E; [|discriminate]. cbn [bind].
    intros H Hother. rewrite (IH _ H) by (intros; eapply Hother; eauto).
    apply load_recipe_ok in E as (c & k0 & Hdoc & Hk & ->).
    rewrite dict_get_set, (Hother p c k0); auto.
Qed.

(** Later rounds never drop a key. *)
Lemma load_all_has (paths : list string) (data data' : dict) (k : key) :
  load_all ext paths data = Ok data' -> dict_has data k = true ->
  dict_has data' k = true.
Proof.
  revert data. induction paths as [|p paths IH]; intros data; simpl.
  - now intros [= <-].
  - destruct (load_recipe ext data p) as [d|] eqn:E; [|discriminate]. cbn [bind].
    intros H Hk. apply (IH _ H).
    apply load_recipe_ok in E as (c & k0 & _ & _ & ->).
    rewrite dict_has_set, Hk. apply orb_true_r.
Qed.

(** The first file whose document lacks the name stops the whole load
    with the validation error that names it. *)
Lemma load_all_missing (before after : list string) (p : string)
  (data mid : dict) (conda : value) :
  load_all ext before data = Ok mid ->
  document ext p = Ok conda ->
  truthy conda = false \/
  (exists d, conda = VDict d /\
     (dict_get d (KStr "package") = None \/
      exists pk, dict_get d (KStr "package") = Some (VDict pk) /\
                 dict_get pk (KStr "name") = None)) ->
  load_all ext (before ++ p :: after)%list data =
  Raise (ValueError ("Missing 'package.name' in " ++ p)).
Proof.
  revert data. induction before as [|q before IH]; intros data; simpl.
  - intros _ Hdoc H. now rewrite (load_recipe_missing data p conda).
  - destruct (load_recipe ext data q) as [d|]; [|discriminate]. cbn [bind].
    apply IH.
Qed.

Lemma pipeline_returned (directory : string) (keywords : list value)
  (verbose : bool) (R : dict) :
  returned (pipeline ext directory keywords verbose)
  = Ok R ->
  exists conda,
    parse_bioconda ext directory = Ok conda /\
    returned (filter_conda_by_keywords conda keywords verbose) = Ok R.
Proof.
  unfold returned, pipeline, io_bind, lift.
  destruct (parse_bioconda ext directory) as [conda|]; [|discriminate].
  intro H. now exists conda.
Qed.

End LoaderFacts.

(** ** The claims of the specification *)

Lemma selected_true (keywords : list value) (item : key * value) :
  selected keywords item = true <-> selects keywords (snd item) = Ok true.
Proof.
  unfold selected. destruct (selects keywords (snd item)) as [[|]|]; split;
    congruence.
Qed.

(** The counterexample to C1 as stated: a recipe whose [package.name] is the
    empty string passes the loader and, matching a keyword, is in the final
    collection. *)
Lemma pipeline_keeps_empty_name :
  returned (pipeline demo "anon" [VStr "16S"] false)
  = Ok [(KStr EmptyString, doc_anon)] /\
  package_name doc_anon = Some (VStr EmptyString).
Proof. split; reflexivity. Qed.

(** C1 (amended): after [parse_bioconda] followed by
    [filter_conda_by_keywords], every recipe of the final collection has a
    [package.name] field, whose value may be the empty string, equal to its
    key as Python compares keys (and the very same string when it is a
    string); it matched at least one keyword against its lower-cased search
    text; and the final collection is the loaded one with entries left out,
    so each of its key/value pairs is a pair of the loaded collection. *)
Theorem pipeline_invariant (ext : externals) (directory : string)
  (keywords : list value) (verbose : bool) (R : dict) (k : key) (recipe : value) :
  returned (pipeline ext directory keywords verbose) = Ok R ->
  In (k, recipe) R ->
  (exists name k',
     package_name recipe = Some name /\ to_key name = Ok k' /\
     key_eqb k k' = true /\ (forall s, name = VStr s -> k = KStr s)) /\
  (exists text s,
     search_text recipe = Ok text /\ In (VStr s) keywords /\
     keyword_hit text (lower s) = true) /\
  (exists conda,
     parse_bioconda ext directory = Ok conda /\
     R = filter (selected keywords) conda /\ In (k, recipe) conda).
Proof.
  intros Hrun Hin.
  apply pipeline_returned in Hrun as (conda & Hload & Hfilter).
  assert (Hwf : dict_wf conda = true) by (apply (load_all_wf _ _ _ _ Hload); reflexivity).
  apply filter_returned in Hfilter as [HR _].
  rewrite store_filter_wf in HR by assumption. subst R.
  apply filter_In in Hin as [Hin Hsel]. repeat split.
  - destruct (load_all_entries _ _ _ _ k recipe Hload Hin)
      as [[]|(p & k' & _ & _ & Hk & Hkk)].
    unfold name_key in Hk.
    destruct (package_name recipe) as [name|] eqn:Hname; [|discriminate].
    destruct (to_key name) as [k0|] eqn:Hto; [|discriminate].
    injection Hk as ->. exists name, k'.
    split; [first [exact Hname|reflexivity]|]. split; [first [exact Hto|reflexivity]|]. split; [exact Hkk|].
    intros s ->. injection Hto as <-. now apply key_eqb_str.
  - apply selected_true, selects_hit in Hsel. exact Hsel.
  - exists conda. auto.
Qed.

Lemma pipeline_invariant_witness :
  (exists name k',
     package_name doc_pkg1 = Some name /\ to_key name = Ok k' /\
     key_eqb (KStr "pkg1") k' = true /\
     (forall s, name = VStr s -> KStr "pkg1" = KStr s)) /\
  (exists text s,
     search_text doc_pkg1 = Ok text /\ In (VStr s) [VStr "microbiome"; VStr "16S"] /\
     keyword_hit text (lower s) = true) /\
  (exists conda,
     parse_bioconda demo "recipes" = Ok conda /\
     [(KStr "pkg1", doc_pkg1)]
     = filter (selected [VStr "microbiome"; VStr "16S"]) conda /\
     In (KStr "pkg1", doc_pkg1) conda).
Proof.
  apply (pipeline_invariant demo "recipes" [VStr "microbiome"; VStr "16S"] true
           [(KStr "pkg1", doc_pkg1)]).
  - vm_compute. reflexivity.
  - simpl. left. reflexivity.
Defined.

(** The counterexample to C2 as stated: the filter reads the description
    first and the summary second, so a keyword that runs from the end of the
    description into the summary selects the recipe, although it does not
    occur in summary-then-description. *)
Lemma search_text_order :
  search_text recipe_asm = Ok "genome assembly" /\
  spec_search_text "assembly" "Genome" = "assembly genome" /\
  returned (filter_conda_by_keywords [(KStr "asm", recipe_asm)]
              [VStr "genome assembly"] false)
  = Ok [(KStr "asm", recipe_asm)] /\
  keyword_hit (spec_search_text "assembly" "Genome") (lower "genome assembly")
  = false.
Proof. repeat split; reflexivity. Qed.

(** C2 (amended): for every recipe, [filter_conda_by_keywords] decides all
    keyword matches against the lower-casing of the recipe's
    [about.description] followed by one space and [about.summary], in that
    order; a missing [about] section and a missing [description] or
    [summary] count as the empty string and raise nothing. *)
Theorem search_text_description_summary (recipe : value) (about : dict)
  (description summary : string) :
  about_section recipe = Some about ->
  text_field about "description" = Some description ->
  text_field about "summary" = Some summary ->
  search_text recipe = Ok (lower (description ++ " " ++ summary)) /\
  (forall kws : list string,
     selects (map VStr kws) recipe =
     Ok (existsb
           (fun kw => keyword_hit (lower (description ++ " " ++ summary)) (lower kw))
           kws)) /\
  (forall (name : key) (kws : list string) (verbose : bool),
     returned (filter_conda_by_keywords [(name, recipe)] (map VStr kws) verbose) =
     Ok (if existsb
              (fun kw => keyword_hit (lower (description ++ " " ++ summary)) (lower kw))
              kws
         then [(name, recipe)] else [])).
Proof.
  intros Ha Hd Hs.
  pose proof (search_text_recipe recipe about description summary Ha Hd Hs) as Ht.
  split; [exact Ht|]. split.
  - intro kws. now apply selects_strings.
  - intros name kws verbose. rewrite filter_returns.
    + simpl. unfold selected. simpl. rewrite (selects_strings kws recipe _ Ht).
      now destruct (existsb _ kws).
    + simpl. rewrite (search_text_is_recipe recipe _ Ht). reflexivity.
Qed.

Lemma search_text_description_summary_witness :
  search_text doc_pkg1
  = Ok (lower (EmptyString ++ " " ++ "Analysis of 16S rRNA microbial communities")) /\
  (forall kws : list string,
     selects (map VStr kws) doc_pkg1 =
     Ok (existsb
           (fun kw =>
              keyword_hit
                (lower (EmptyString ++ " " ++ "Analysis of 16S rRNA microbial communities"))
                (lower kw))
           kws)) /\
  (forall (name : key) (kws : list string) (verbose : bool),
     returned (filter_conda_by_keywords [(name, doc_pkg1)] (map VStr kws) verbose) =
     Ok (if existsb
              (fun kw =>
                 keyword_hit
                   (lower (EmptyString ++ " " ++ "Analysis of 16S rRNA microbial communities"))
                   (lower kw))
              kws
         then [(name, doc_pkg1)] else [])).
Proof.
  apply (search_text_description_summary doc_pkg1
           [(KStr "summary", VStr "Analysis of 16S rRNA microbial communities")]);
    reflexivity.
Defined.

Lemma selects_one (recipe : value) (text kw : string) :
  search_text recipe = Ok text ->
  selects [VStr kw] recipe = Ok (keyword_hit text (lower kw)).
Proof.
  intro H. change [VStr kw] with (map VStr [kw]).
  rewrite (selects_strings [kw] recipe text H). simpl.
  now rewrite orb_false_r.
Qed.

(** C3: a keyword that contains a star selects a recipe exactly when one of
    the whitespace-delimited tokens of the lower-cased search text matches
    the lower-cased keyword under [fnmatch]; the tokens [split] returns are
    exactly the non-empty pieces of the text without whitespace that reach
    from a token start to a token end, so no match reaches across a token
    boundary; a star between literal parts stands for any run of characters
    of the token; [metagenom*] matches every text that holds the token
    [metagenomic] and no text whose only token is [genome]. *)
Theorem wildcard_keyword (recipe : value) (text kw : string) :
  search_text recipe = Ok text ->
  str_in "*" kw = true ->
  selects [VStr kw] recipe
  = Ok (existsb (fun word => fnmatch word (lower kw)) (split text)) /\
  (selects [VStr kw] recipe = Ok true <->
   exists word, In word (split text) /\ fnmatch word (lower kw) = true) /\
  (selects [VStr kw] recipe = Ok true <->
   exists pre word post,
     text = pre ++ word ++ post /\
     is_empty word = false /\ no_space word = true /\
     left_edge pre = true /\ right_edge post = true /\
     fnmatch word (lower kw) = true) /\
  (forall t word, In word (split t) <-> token_of t word) /\
  (forall word, In word (split text) ->
     is_empty word = false /\ no_space word = true /\
     exists pre post, text = pre ++ word ++ post) /\
  (forall p q word, plain p = true -> plain q = true ->
     (fnmatch word (p ++ "*" ++ q) = true <-> exists run, word = p ++ run ++ q)) /\
  (forall pre post, left_edge pre = true -> right_edge post = true ->
     keyword_hit (pre ++ "metagenomic" ++ post) (lower "metagenom*") = true) /\
  (forall t, In "metagenomic" (split t) ->
     keyword_hit t (lower "metagenom*") = true) /\
  (forall pre post, blank pre = true -> blank post = true ->
     keyword_hit (pre ++ "genome" ++ post) (lower "metagenom*") = false) /\
  (forall t, (forall word, In word (split t) -> word = "genome") ->
     keyword_hit t (lower "metagenom*") = false) /\
  keyword_hit "meta genomic" (lower "meta*genomic") = false.
Proof.
  intros Ht Hstar.
  assert (Hsel : selects [VStr kw] recipe
                 = Ok (existsb (fun word => fnmatch word (lower kw)) (split text))).
  { rewrite (selects_one recipe text kw Ht). unfold keyword_hit.
    now rewrite str_in_star_lower, Hstar. }
  assert (Hex : selects [VStr kw] recipe = Ok true <->
                exists word, In word (split text) /\ fnmatch word (lower kw) = true).
  { rewrite Hsel. split.
    - intros [= H]. apply existsb_exists in H. exact H.
    - intro H. f_equal. apply existsb_exists. exact H. }
  assert (Hin : forall t, In "metagenomic" (split t) ->
                          keyword_hit t (lower "metagenom*") = true).
  { intros t Hin. change (keyword_hit t (lower "metagenom*"))
      with (existsb (fun word => fnmatch word "metagenom*") (split t)).
    apply existsb_exists. exists "metagenomic". split; [assumption|reflexivity]. }
  assert (Hall : forall t, (forall word, In word (split t) -> word = "genome") ->
                           keyword_hit t (lower "metagenom*") = false).
  { intros t Hall. change (keyword_hit t (lower "metagenom*"))
      with (existsb (fun word => fnmatch word "metagenom*") (split t)).
    destruct (existsb _ (split t)) eqn:E; [|reflexivity].
    apply existsb_exists in E as (word & Hw & Hm).
    rewrite (Hall word Hw) in Hm. discriminate. }
  split; [exact Hsel|]. split; [exact Hex|].
  split; [|split; [|split; [|split; [|split; [|split; [|split; [|split]]]]]]].
  - rewrite Hex. split.
    + intros (word & Hw & Hm).
      apply split_token_of in Hw as (pre & post & H1 & H2 & H3 & H4 & H5).
      exists pre, word, post. auto 10.
    + intros (pre & word & post & H1 & H2 & H3 & H4 & H5 & Hm).
      exists word. split; [|exact Hm]. apply split_token_of.
      exists pre, post. auto.
  - intros t word. apply split_token_of.
  - intros word. apply split_tokens.
  - intros p q word. apply fnmatch_star.
  - intros pre post Hl Hr. apply Hin, split_token_of.
    exists pre, post. auto.
  - exact Hin.
  - intros pre post Hpre Hpost. apply Hall. intros word.
    unfold split. rewrite split_ws_blank_prefix by assumption.
    change (split_ws ("genome" ++ post) EmptyString) with (split_ws post "genome").
    rewrite split_ws_blank_suffix by auto. now intros [<-|[]].
  - exact Hall.
  - reflexivity.
Qed.

Lemma wildcard_keyword_witness :
  selects [VStr "Metagenom*"] recipe_pkg3 = Ok true /\
  (selects [VStr "Metagenom*"] recipe_pkg3 = Ok true <->
   exists word,
     In word (split "assembles metagenomic reads into contigs metagenome assembly pipeline") /\
     fnmatch word (lower "Metagenom*") = true) /\
  (selects [VStr "Metagenom*"] recipe_pkg3 = Ok true <->
   exists pre word post,
     "assembles metagenomic reads into contigs metagenome assembly pipeline"
     = pre ++ word ++ post /\
     is_empty word = false /\ no_space word = true /\
     left_edge pre = true /\ right_edge post = true /\
     fnmatch word (lower "Metagenom*") = true) /\
  (forall t word, In word (split t) <-> token_of t word) /\
  (forall word,
     In word (split "assembles metagenomic reads into contigs metagenome assembly pipeline") ->
     is_empty word = false /\ no_space word = true /\
     exists pre post,
       "assembles metagenomic reads into contigs metagenome assembly pipeline"
       = pre ++ word ++ post) /\
  (forall p q word, plain p = true -> plain q = true ->
     (fnmatch word (p ++ "*" ++ q) = true <-> exists run, word = p ++ run ++ q)) /\
  (forall pre post, left_edge pre = true -> right_edge post = true ->
     keyword_hit (pre ++ "metagenomic" ++ post) (lower "metagenom*") = true) /\
  (forall t, In "metagenomic" (split t) ->
     keyword_hit t (lower "metagenom*") = true) /\
  (forall pre post, blank pre = true -> blank post = true ->
     keyword_hit (pre ++ "genome" ++ post) (lower "metagenom*") = false) /\
  (forall t, (forall word, In word (split t) -> word = "genome") ->
     keyword_hit t (lower "metagenom*") = false) /\
  keyword_hit "meta genomic" (lower "meta*genomic") = false.
Proof.
  apply (wildcard_keyword recipe_pkg3
           "assembles metagenomic reads into contigs metagenome assembly pipeline"
           "Metagenom*");
    reflexivity.
Defined.

(** C4: a keyword without a star selects a recipe exactly when the
    lower-cased keyword lies somewhere inside the lower-cased search text;
    keywords that differ in case only select alike; [16S] matches every text
    in which [16s rrna] occurs. *)
Theorem literal_keyword (recipe : value) (text kw : string) :
  search_text recipe = Ok text ->
  str_in "*" kw = false ->
  selects [VStr kw] recipe = Ok (str_in (lower kw) text) /\
  (selects [VStr kw] recipe = Ok true <->
   exists pre post, text = pre ++ lower kw ++ post) /\
  (forall kw', lower kw' = lower kw ->
     selects [VStr kw'] recipe = selects [VStr kw] recipe) /\
  (forall t, str_in "16s rrna" t = true -> keyword_hit t (lower "16S") = true).
Proof.
  intros Ht Hstar.
  assert (Hsel : selects [VStr kw] recipe = Ok (str_in (lower kw) text)).
  { rewrite (selects_one recipe text kw Ht). unfold keyword_hit.
    now rewrite str_in_star_lower, Hstar. }
  split; [exact Hsel|]. split; [|split].
  - rewrite Hsel, <- str_in_spec. split; [now intros [= ->]|now intros ->].
  - intros kw' Hlow. rewrite !(selects_one recipe text _ Ht). now rewrite Hlow.
  - intros t H. change (keyword_hit t (lower "16S")) with (str_in "16s" t).
    apply str_in_spec in H as (pre & post & ->). apply str_in_spec.
    now exists pre, (" rrna" ++ post).
Qed.

Lemma literal_keyword_witness :
  selects [VStr "16S"] doc_pkg1
  = Ok (str_in (lower "16S") " analysis of 16s rrna microbial communities") /\
  (selects [VStr "16S"] doc_pkg1 = Ok true <->
   exists pre post,
     " analysis of 16s rrna microbial communities" = pre ++ lower "16S" ++ post) /\
  (forall kw', lower kw' = lower "16S" ->
     selects [VStr kw'] doc_pkg1 = selects [VStr "16S"] doc_pkg1) /\
  (forall t, str_in "16s rrna" t = true -> keyword_hit t (lower "16S") = true).
Proof.
  apply (literal_keyword doc_pkg1 " analysis of 16s rrna microbial communities" "16S");
    reflexivity.
Defined.

(** C5: [filter_conda_by_keywords] is idempotent: filtering its own result
    with the same keywords returns that result again, and a run that raises
    raises alike. *)
Theorem filter_idempotent (conda : dict) (keywords : list value) (verbose : bool) :
  (R <- returned (filter_conda_by_keywords conda keywords verbose) ;;
   returned (filter_conda_by_keywords R keywords verbose))
  = returned (filter_conda_by_keywords conda keywords verbose).
Proof.
  destruct (returned (filter_conda_by_keywords conda keywords verbose))
    as [R|e] eqn:E; [|reflexivity].
  cbn [bind]. apply filter_returned in E as [HR _].
  assert (Hwf : dict_wf R = true) by (subst R; now apply store_all_wf).
  assert (Hsel : forall item, In item R -> selected keywords item = true).
  { intros [k v] Hin. subst R. apply store_all_In in Hin as [[]|(k' & Hin & _)].
    apply filter_In in Hin as [_ Hin]. exact Hin. }
  unfold returned. rewrite filter_result.
  destruct (filter_steps_total keywords R ([], 0%nat)) as [n Hn].
  - intros item Hin. exists true. now apply selected_true, Hsel.
  - rewrite Hn. cbn [bind fst]. rewrite (filter_all _ _ Hsel).
    f_equal. apply (store_all_app R []). exact Hwf.
Qed.

(** C6: in the collection [parse_bioconda] returns, every entry holds the
    document of one of the matched files under a key equal to that
    document's [package.name] (the very same string when the name is a
    string), not its path; and the document of every matched file was
    stored under the key its [package.name] makes, which is a key of the
    collection and still holds that document unless a later file has the
    same name. *)
Theorem parse_bioconda_keys (ext : externals) (directory : string) (data : dict) :
  parse_bioconda ext directory = Ok data ->
  (forall k conda, In (k, conda) data ->
     exists p name k',
       In p (glob_meta ext directory) /\ document ext p = Ok conda /\
       package_name conda = Some name /\ to_key name = Ok k' /\
       key_eqb k k' = true /\ (forall s, name = VStr s -> k = KStr s)) /\
  (forall before p after,
     glob_meta ext directory = (before ++ p :: after)%list ->
     exists conda name k,
       document ext p = Ok conda /\
       package_name conda = Some name /\ to_key name = Ok k /\
       dict_has data k = true /\
       ((forall q c k', In q after -> document ext q = Ok c ->
                        name_key c = Some k' -> key_eqb k' k = false) ->
        dict_get data k = Some conda)).
Proof.
  unfold parse_bioconda. intro Hload. split.
  - intros k conda Hin.
    destruct (load_all_entries _ _ _ _ k conda Hload Hin)
      as [[]|(p & k' & Hp & Hdoc & Hk & Hkk)].
    unfold name_key in Hk.
    destruct (package_name conda) as [name|] eqn:Hname; [|discriminate].
    destruct (to_key name) as [k0|] eqn:Hto; [|discriminate].
    injection Hk as ->. exists p, name, k'.
    split; [exact Hp|]. split; [exact Hdoc|]. split; [first [exact Hname|reflexivity]|].
    split; [first [exact Hto|reflexivity]|]. split; [exact Hkk|].
    intros s ->. injection Hto as <-. now apply key_eqb_str.
  - intros before p after Hpaths. rewrite Hpaths in Hload.
    apply load_all_app in Hload as (mid & _ & Hrest). simpl in Hrest.
    destruct (load_recipe ext mid p) as [d|] eqn:E; [|discriminate].
    cbn [bind] in Hrest.
    apply load_recipe_ok in E as (conda & k & Hdoc & Hk & ->).
    unfold name_key in Hk.
    destruct (package_name conda) as [name|] eqn:Hname; [|discriminate].
    destruct (to_key name) as [k0|] eqn:Hto; [|discriminate].
    injection Hk as ->. exists conda, name, k.
    split; [exact Hdoc|]. split; [first [exact Hname|reflexivity]|]. split; [first [exact Hto|reflexivity]|]. split.
    + apply (load_all_has _ _ _ _ k Hrest).
      rewrite dict_has_set, key_eqb_refl. reflexivity.
    + intro Hother. rewrite (load_all_get_other _ _ _ _ k Hrest Hother).
      rewrite dict_get_set, key_eqb_refl. reflexivity.
Qed.

Lemma parse_bioconda_keys_witness :
  (forall k conda,
     In (k, conda) [(KStr "pkg1", doc_pkg1); (KStr "pkg2", doc_pkg2)] ->
     exists p name k',
       In p (glob_meta demo "recipes") /\ document demo p = Ok conda /\
       package_name conda = Some name /\ to_key name = Ok k' /\
       key_eqb k k' = true /\ (forall s, name = VStr s -> k = KStr s)) /\
  (forall before p after,
     glob_meta demo "recipes" = (before ++ p :: after)%list ->
     exists conda name k,
       document demo p = Ok conda /\
       package_name conda = Some name /\ to_key name = Ok k /\
       dict_has [(KStr "pkg1", doc_pkg1); (KStr "pkg2", doc_pkg2)] k = true /\
       ((forall q c k', In q after -> document demo q = Ok c ->
                        name_key c = Some k' -> key_eqb k' k = false) ->
        dict_get [(KStr "pkg1", doc_pkg1); (KStr "pkg2", doc_pkg2)] k = Some conda)).
Proof.
  apply (parse_bioconda_keys demo "recipes"
           [(KStr "pkg1", doc_pkg1); (KStr "pkg2", doc_pkg2)]).
  vm_compute. reflexivity.
Defined.

(** C7, at the input where the code departs from it: the second file of the
    directory parses to a document whose [package] section is empty, so the
    document has no [package.name]; the load stops there, yet with the
    interpreter's own [TypeError], which names no file, instead of the
    validation error. *)
Theorem parse_bioconda_empty_package_section :
  glob_meta demo "hollow" = ["hollow/pkg1/meta.yaml"; "hollow/x/meta.yaml"] /\
  document demo "hollow/x/meta.yaml" = Ok doc_hollow /\
  package_name doc_hollow = None /\
  parse_bioconda demo "hollow"
  = Raise (TypeError "argument of type 'NoneType' is not iterable").
Proof. repeat split; reflexivity. Qed.

(** What [keywords_of] does with a mapping: a missing key is the
    missing-key error, a value that is no list is the type error, a list is
    returned as it is. *)
Lemma keywords_of_mapping (keyword_file : string) (d : dict) :
  returned (keywords_of keyword_file (VDict d)) =
  match dict_get d (KStr "keywords") with
  | None => Raise (ValueError ("No 'keywords' key found in " ++ keyword_file))
  | Some (VList l) => Ok l
  | Some _ => Raise (TypeError ("'keywords' in " ++ keyword_file ++ " must be a list"))
  end.
Proof.
  unfold returned, keywords_of, keywords_missing, io_bind, lift.
  destruct d as [|item d]; [reflexivity|].
  cbn [truthy negb py_contains py_getitem bind]. unfold dict_has.
  destruct (dict_get (item :: d) (KStr "keywords")) as [[| | | |l|]|]; reflexivity.
Qed.

Lemma load_keywords_mapping (ext : externals) (keyword_file text : string)
  (d : dict) :
  read_text ext keyword_file = Some text ->
  safe_load ext text = Some (VDict d) ->
  returned (load_keywords_from_yaml ext keyword_file) =
  match dict_get d (KStr "keywords") with
  | None => Raise (ValueError ("No 'keywords' key found in " ++ keyword_file))
  | Some (VList l) => Ok l
  | Some _ => Raise (TypeError ("'keywords' in " ++ keyword_file ++ " must be a list"))
  end.
Proof.
  intros Hread Hload. unfold load_keywords_from_yaml. rewrite Hread, Hload.
  apply keywords_of_mapping.
Qed.

(** An empty keyword file parses to [None] and is the missing-key error. *)
Lemma keywords_of_empty_document (keyword_file : string) :
  returned (keywords_of keyword_file VNone)
  = Raise (ValueError ("No 'keywords' key found in " ++ keyword_file)).
Proof. reflexivity. Qed.

(** C8, at the input where the code departs from it: a keyword file that
    holds the one word [keywords] parses to a string, a document without the
    recognized key; the substring test of line 130 takes the word for the
    key, and the load ends with the interpreter's [TypeError] on line 133
    instead of the missing-key error. *)
Theorem load_keywords_scalar_document :
  read_text demo "keywords.txt" = Some "keywords" /\
  safe_load demo "keywords" = Some (VStr "keywords") /\
  has_keywords_key (VStr "keywords") = false /\
  returned (load_keywords_from_yaml demo "keywords.txt")
  = Raise (TypeError "string indices must be integers, not 'str'").
Proof. repeat split; reflexivity. Qed.

(** The scenario of the test suite: of [pkg1], [pkg2] and [pkg3] the
    keywords [microbiome], [16S] and [metagenom*] keep [pkg1] and [pkg3]. *)
Example sample_filter :
  exists r1 r3,
    returned (filter_conda_by_keywords sample_conda (map VStr sample_keywords) false)
    = Ok [(KStr "pkg1", r1); (KStr "pkg3", r3)].
Proof. eexists. eexists. reflexivity. Qed.

(** C9: the mapping [filter_conda_by_keywords] returns, or the exception it
    raises, is the same with [verbose=True] and with [verbose=False], from
    any state of the output; with [verbose=False] nothing is printed. *)
Theorem verbose_only_prints (conda : dict) (keywords : list value) :
  returned (filter_conda_by_keywords conda keywords true)
  = returned (filter_conda_by_keywords conda keywords false) /\
  (forall out out',
     snd (filter_conda_by_keywords conda keywords true out)
     = snd (filter_conda_by_keywords conda keywords false out')) /\
  printed (filter_conda_by_keywords conda keywords false) = [].
Proof.
  unfold returned, printed. repeat split.
  - now rewrite !filter_result.
  - intros out out'. now rewrite !filter_result.
  - unfold filter_conda_by_keywords, io_bind.
    pose proof (for_each_quiet keywords conda ([], 0%nat) []) as H.
    destruct (for_each (filter_body keywords false) conda ([], 0%nat) [])
      as [out [st|e]]; simpl in *; exact H.
Qed.

Lemma matched_keywords_complete (text : string) (keywords matched m : list value) :
  matched_keywords text keywords matched = Ok m ->
  (forall kw, In kw matched -> In kw m) /\
  (forall s, In (VStr s) keywords -> keyword_hit text (lower s) = true ->
             In (VStr s) m).
Proof.
  revert matched. induction keywords as [|k keywords IH]; intros matched; simpl.
  - intros [= ->]. split; [auto|intros s []].
  - destruct k as [| | |s0| |]; try discriminate. cbn [py_lower bind].
    intro H. apply IH in H as [Hacc Hhit]. split.
    + intros kw Hin. apply Hacc.
      destruct (keyword_hit text (lower s0)); [apply in_or_app|]; auto.
    + intros s [[= ->]|Hin] Hs; [|auto].
      apply Hacc. rewrite Hs. apply in_or_app. right. now left.
Qed.

Lemma strings_map (keywords : list value) :
  (forall kw, In kw keywords -> exists s, kw = VStr s) ->
  exists kws, keywords = map VStr kws.
Proof.
  induction keywords as [|kw keywords IH]; intro H.
  - now exists [].
  - destruct (H kw (or_introl eq_refl)) as [s ->].
    destruct IH as [kws ->]; [intros; apply H; now right|].
    now exists (s :: kws).
Qed.

(** C10: when the empty string is among the keywords, the filter returns
    the whole input collection: whenever it returns, and it does return on
    every collection of recipes of the data model with string keywords. *)
Theorem empty_keyword_keeps_all (conda : dict) (keywords : list value)
  (verbose : bool) :
  dict_wf conda = true ->
  In (VStr EmptyString) keywords ->
  (forall R, returned (filter_conda_by_keywords conda keywords verbose) = Ok R ->
             R = conda) /\
  (forallb is_recipe (map snd conda) = true ->
   (forall kw, In kw keywords -> exists s, kw = VStr s) ->
   returned (filter_conda_by_keywords conda keywords verbose) = Ok conda).
Proof.
  intros Hwf Hempty.
  assert (Hall : forall R,
             returned (filter_conda_by_keywords conda keywords verbose) = Ok R ->
             R = conda).
  { intros R HR. apply filter_returned in HR as [-> Hok].
    rewrite store_filter_wf by assumption. apply filter_all.
    intros item Hin. apply selected_true.
    destruct (Hok item Hin) as [b Hb]. rewrite Hb. f_equal.
    unfold selects in Hb.
    destruct (search_text (snd item)) as [text|]; [|discriminate].
    cbn [bind] in Hb.
    destruct (matched_keywords text keywords []) as [m|] eqn:Hm; [|discriminate].
    apply matched_keywords_complete in Hm as [_ Hm].
    specialize (Hm EmptyString Hempty (str_in_empty text)).
    destruct m; [destruct Hm|]. now injection Hb as <-. }
  split; [exact Hall|].
  intros Hrec Hstr. apply strings_map in Hstr as [kws ->].
  pose proof (filter_returns conda kws verbose Hrec) as H.
  rewrite H. f_equal. now apply Hall.
Qed.

Lemma empty_keyword_keeps_all_witness :
  (forall R,
     returned (filter_conda_by_keywords sample_conda
                 [VStr "microbiome"; VStr EmptyString] true) = Ok R ->
     R = sample_conda) /\
  (forallb is_recipe (map snd sample_conda) = true ->
   (forall kw, In kw [VStr "microbiome"; VStr EmptyString] -> exists s, kw = VStr s) ->
   returned (filter_conda_by_keywords sample_conda
               [VStr "microbiome"; VStr EmptyString] true) = Ok sample_conda).
Proof.
  apply (empty_keyword_keeps_all sample_conda [VStr "microbiome"; VStr EmptyString] true).
  - reflexivity.
  - simpl. right. left. reflexivity.
Defined.

(** ** Further properties of the loader *)

Lemma load_all_raise (ext : externals) (before after : list string) (p : string)
  (data mid : dict) (e : exn) :
  load_all ext before data = Ok mid ->
  load_recipe ext mid p = Raise e ->
  load_all ext (before ++ p :: after)%list data = Raise e.
Proof.
  revert data. induction before as [|q before IH]; intros data; simpl.
  - intros [= ->] H. now rewrite H.
  - destruct (load_recipe ext data q) as [d|]; [|discriminate]. cbn [bind].
    apply IH.
Qed.

(** X1: a file that cannot be read, or whose template does not build or
    render, ends the load with a [RuntimeError] that names the file, once the
    files before it have loaded and whatever files come after it. *)
Theorem parse_bioconda_render_error (ext : externals) (directory p : string)
  (before after : list string) (mid : dict) :
  glob_meta ext directory = (before ++ p :: after)%list ->
  load_all ext before [] = Ok mid ->
  read_text ext p = None \/
  (exists text, read_text ext p = Some text /\ render ext text = None) ->
  parse_bioconda ext directory
  = Raise (RuntimeError ("Failed to render Jinja2 template in " ++ p)).
Proof.
  intros Hpaths Hbefore H. unfold parse_bioconda. rewrite Hpaths.
  apply (load_all_raise ext before after p [] mid _ Hbefore).
  unfold load_recipe, render_file.
  destruct H as [->|(text & -> & ->)]; reflexivity.
Qed.

Lemma parse_bioconda_render_error_witness :
  parse_bioconda faulty "unrendered"
  = Raise (RuntimeError
             ("Failed to render Jinja2 template in " ++ "unrendered/t/meta.yaml")).
Proof.
  apply (parse_bioconda_render_error faulty "unrendered" "unrendered/t/meta.yaml"
           ["unrendered/pkg1/meta.yaml"] [] [(KStr "pkg1", doc_pkg1)]).
  - reflexivity.
  - reflexivity.
  - right. exists "{% if %}". split; reflexivity.
Defined.

(** X2: a file whose rendered text is not valid YAML ends the load with a
    [RuntimeError] that names the file, once the files before it have loaded
    and whatever files come after it. *)
Theorem parse_bioconda_yaml_error (ext : externals) (directory p : string)
  (before after : list string) (mid : dict) (text rendered : string) :
  glob_meta ext directory = (before ++ p :: after)%list ->
  load_all ext before [] = Ok mid ->
  read_text ext p = Some text ->
  render ext text = Some rendered ->
  safe_load ext rendered = None ->
  parse_bioconda ext directory
  = Raise (RuntimeError ("Failed to parse YAML in " ++ p)).
Proof.
  intros Hpaths Hbefore Hread Hrender Hload. unfold parse_bioconda.
  rewrite Hpaths. apply (load_all_raise ext before after p [] mid _ Hbefore).
  unfold load_recipe, render_file, parse_yaml.
  now rewrite Hread, Hrender; cbn [bind]; rewrite Hload.
Qed.

Lemma parse_bioconda_yaml_error_witness :
  parse_bioconda faulty "unparsed"
  = Raise (RuntimeError ("Failed to parse YAML in " ++ "unparsed/y/meta.yaml")).
Proof.
  apply (parse_bioconda_yaml_error faulty "unparsed" "unparsed/y/meta.yaml"
           ["unparsed/pkg1/meta.yaml"] [] [(KStr "pkg1", doc_pkg1)]
           "package: [name" "package: [name");
    reflexivity.
Defined.

(** A document with a [package.name] passes the guard of line 54. *)
Lemma name_present (conda name : value) :
  package_name conda = Some name ->
  name_missing conda = Ok false /\
  exists package,
    py_getitem conda "package" = Ok package /\
    py_getitem package "name" = Ok name.
Proof.
  unfold package_name, name_missing.
  destruct conda as [| | | | |d]; try discriminate.
  destruct (dict_get d (KStr "package")) as [[| | | | |pk]|] eqn:Hp;
    try discriminate.
  intro Hn. assert (Ht : truthy (VDict d) = true) by (now destruct d).
  rewrite Ht. cbn [negb py_contains py_getitem bind]. unfold dict_has.
  rewrite Hp. cbn [negb py_contains py_getitem bind]. unfold dict_has.
  rewrite Hn. split; [reflexivity|]. exists (VDict pk). cbn [py_getitem].
  now rewrite Hn.
Qed.

(** X3: a [package.name] that is a list cannot be a key of the collection:
    the load ends with [TypeError], once the files before it have loaded. *)
Theorem parse_bioconda_unhashable_name (ext : externals) (directory p : string)
  (before after : list string) (mid : dict) (conda : value) (l : list value) :
  glob_meta ext directory = (before ++ p :: after)%list ->
  load_all ext before [] = Ok mid ->
  document ext p = Ok conda ->
  package_name conda = Some (VList l) ->
  parse_bioconda ext directory = Raise (TypeError "unhashable type: 'list'").
Proof.
  intros Hpaths Hbefore Hdoc Hname. unfold parse_bioconda. rewrite Hpaths.
  apply (load_all_raise ext before after p [] mid _ Hbefore).
  unfold load_recipe. unfold document in Hdoc.
  destruct (render_file ext p) as [rendered|]; [|discriminate].
  cbn [bind] in *. rewrite Hdoc. cbn [bind].
  destruct (name_present conda _ Hname) as (-> & package & -> & Hn).
  cbn [bind]. now rewrite Hn.
Qed.

Lemma parse_bioconda_unhashable_name_witness :
  parse_bioconda faulty "listname" = Raise (TypeError "unhashable type: 'list'").
Proof.
  apply (parse_bioconda_unhashable_name faulty "listname" "listname/l/meta.yaml"
           ["listname/pkg1/meta.yaml"] [] [(KStr "pkg1", doc_pkg1)]
           doc_list_name [VStr "a"; VStr "b"]);
    reflexivity.
Defined.

Lemma load_recipe_entry (ext : externals) (data : dict) (p : string)
  (k : key) (conda : value) :
  recipe_entry ext p = Some (k, conda) ->
  load_recipe ext data p = Ok (dict_set data k conda).
Proof.
  unfold recipe_entry, load_recipe, document.
  destruct (render_file ext p) as [rendered|]; [|discriminate]. cbn [bind].
  destruct (parse_yaml ext p rendered) as [c|]; [|discriminate]. cbn [bind].
  unfold name_key. destruct (package_name c) as [name|] eqn:Hname; [|discriminate].
  destruct (to_key name) as [k0|] eqn:Hto; [|discriminate].
  intros [= -> ->].
  destruct (name_present conda _ Hname) as (-> & package & -> & Hn).
  cbn [bind]. rewrite Hn. cbn [bind]. now rewrite Hto.
Qed.

Lemma load_all_stores (ext : externals) (paths : list string) (data data' : dict) :
  load_all ext paths data = Ok data' <->
  exists entries,
    map (recipe_entry ext) paths = map Some entries /\
    data' = store_all entries data.
Proof.
  revert data. induction paths as [|p paths IH]; intros data; simpl.
  - split.
    + intros [= <-]. now exists [].
    + intros ([|entry entries] & H & ->); [reflexivity|discriminate].
  - split.
    + destruct (load_recipe ext data p) as [d|] eqn:E; [|discriminate].
      cbn [bind]. intro H. apply IH in H as (entries & Hmap & ->).
      apply load_recipe_ok in E as (conda & k & Hdoc & Hk & ->).
      exists ((k, conda) :: entries). split; [|reflexivity].
      simpl. rewrite Hmap. unfold recipe_entry. now rewrite Hdoc, Hk.
    + intros ([|[k conda] entries] & H & ->); [discriminate|].
      simpl in H. injection H as He Hmap.
      rewrite (load_recipe_entry ext data p k conda He). cbn [bind].
      apply IH. now exists entries.
Qed.

(** X4: [parse_bioconda] returns exactly when every matched file renders,
    parses and has a hashable [package.name], and what it returns is the
    collection obtained by storing the documents under their names in the
    order of the files. *)
Theorem parse_bioconda_stores_in_order (ext : externals) (directory : string)
  (data : dict) :
  parse_bioconda ext directory = Ok data <->
  exists entries,
    map (recipe_entry ext) (glob_meta ext directory) = map Some entries /\
    data = store_all entries [].
Proof. apply load_all_stores. Qed.

Lemma dict_set_length (d : dict) (k : key) (v : value) :
  (length (dict_set d k v) <= S (length d))%nat.
Proof.
  induction d as [|[k0 v0] d IH]; simpl; [lia|].
  destruct (key_eqb k0 k); simpl; lia.
Qed.

Lemma store_all_length (entries : list (key * value)) (d : dict) :
  (length (store_all entries d) <= length d + length entries)%nat.
Proof.
  revert d. induction entries as [|[k v] entries IH]; intros d; simpl; [lia|].
  unfold store_all in *. simpl. specialize (IH (dict_set d k v)).
  pose proof (dict_set_length d k v). lia.
Qed.

(** X5: the collection [parse_bioconda] returns has no two entries under
    equal keys and no more entries than there are matched files; when the
    names of the files are pairwise different it lists one entry per file, in
    the order of the files. *)
Theorem parse_bioconda_size (ext : externals) (directory : string) (data : dict) :
  parse_bioconda ext directory = Ok data ->
  dict_wf data = true /\
  (length data <= length (glob_meta ext directory))%nat /\
  (forall entries,
     map (recipe_entry ext) (glob_meta ext directory) = map Some entries ->
     dict_wf entries = true -> data = entries).
Proof.
  intro H. split; [|split].
  - apply (load_all_wf _ _ _ _ H). reflexivity.
  - apply parse_bioconda_stores_in_order in H as (entries & Hmap & ->).
    pose proof (store_all_length entries []) as Hlen. simpl in Hlen.
    apply (f_equal (@length _)) in Hmap. rewrite !length_map in Hmap. lia.
  - intros entries Hmap Hwf.
    apply parse_bioconda_stores_in_order in H as (entries' & Hmap' & ->).
    rewrite Hmap in Hmap'.
    assert (entries = entries') as <-.
    { clear -Hmap'. revert entries' Hmap'.
      induction entries as [|x xs IH]; intros [|y ys]; simpl; try discriminate;
        [reflexivity|]. intros [= -> H]. f_equal. now apply IH. }
    now apply (store_all_app entries []).
Qed.

Lemma parse_bioconda_size_witness :
  dict_wf [(KStr "pkg1", doc_pkg1); (KStr "pkg2", doc_pkg2)] = true /\
  (length [(KStr "pkg1", doc_pkg1); (KStr "pkg2", doc_pkg2)]
   <= length (glob_meta faulty "good"))%nat /\
  (forall entries,
     map (recipe_entry faulty) (glob_meta faulty "good") = map Some entries ->
     dict_wf entries = true ->
     [(KStr "pkg1", doc_pkg1); (KStr "pkg2", doc_pkg2)] = entries).
Proof.
  apply (parse_bioconda_size faulty "good"). reflexivity.
Defined.

(** ** Further properties of the filter *)

Lemma existsb_filter {A : Type} (f : A -> bool) (l : list A) :
  existsb f l = match filter f l with [] => false | _ :: _ => true end.
Proof.
  induction l as [|x l IH]; simpl; [reflexivity|].
  now destruct (f x).
Qed.

Lemma selected_strings (kws : list string) (item : key * value) (text : string) :
  search_text (snd item) = Ok text ->
  selected (map VStr kws) item
  = existsb (fun kw => keyword_hit text (lower kw)) kws.
Proof.
  intro H. unfold selected. now rewrite (selects_strings kws _ text H).
Qed.

Lemma filter_body_strings (kws : list string) (verbose : bool) (f : dict)
  (n : nat) (item : key * value) (out : list line) :
  is_recipe (snd item) = true ->
  filter_body (map VStr kws) verbose (f, n) item out =
  if selected (map VStr kws) item
  then ((if verbose then out ++ [match_line kws item] else out)%list,
        Ok (dict_set f (fst item) (snd item), S n))
  else (out, Ok (f, n)).
Proof.
  intro Hrec. destruct (is_recipe_search_text _ Hrec) as [text Ht].
  rewrite (selected_strings kws item text Ht), existsb_filter.
  destruct item as [name recipe]. simpl in Ht.
  unfold filter_body, match_line, matched_of, io_bind, lift, io_ret, print.
  simpl. rewrite Ht, matched_keywords_strings. simpl.
  destruct (filter (fun kw => keyword_hit text (lower kw)) kws); simpl;
    [reflexivity|]. now destruct verbose.
Qed.

Lemma for_each_strings (kws : list string) (items : list (key * value))
  (f : dict) (n : nat) (out : list line) :
  forallb is_recipe (map snd items) = true ->
  for_each (filter_body (map VStr kws) true) items (f, n) out =
  ((out ++ map (match_line kws) (filter (selected (map VStr kws)) items))%list,
   Ok (store_all (filter (selected (map VStr kws)) items) f,
       (n + length (filter (selected (map VStr kws)) items))%nat)).
Proof.
  revert f n out. induction items as [|item items IH]; intros f n out.
  - intros _. simpl. unfold io_ret. now rewrite app_nil_r, Nat.add_0_r.
  - intro H. simpl in H. apply andb_prop in H as [Hitem Hitems].
    cbn [for_each filter]. unfold io_bind.
    rewrite (filter_body_strings kws true f n item out Hitem).
    destruct (selected (map VStr kws) item); rewrite IH by assumption.
    + simpl. rewrite <- app_assoc. simpl. do 3 f_equal. lia.
    + reflexivity.
Qed.

(** X6: on a collection of recipes of the data model, with string keywords
    and [verbose=True], the filter prints one line per kept entry, in the
    order of the collection and with the keywords that matched it, then the
    total, which is the number of entries it returns. *)
Theorem filter_prints_matches (conda : dict) (kws : list string) :
  dict_wf conda = true ->
  forallb is_recipe (map snd conda) = true ->
  filter_conda_by_keywords conda (map VStr kws) true [] =
  ((map (match_line kws) (filter (selected (map VStr kws)) conda)
    ++ [TotalMatches (length (filter (selected (map VStr kws)) conda))])%list,
   Ok (filter (selected (map VStr kws)) conda)).
Proof.
  intros Hwf Hrec. unfold filter_conda_by_keywords, io_bind.
  pose proof (for_each_strings kws conda [] 0 [] Hrec) as Hloop.
  simpl in Hloop. unfold dict in *. rewrite Hloop.
  unfold print, io_ret. simpl. now rewrite store_filter_wf.
Qed.

Lemma filter_prints_matches_witness :
  filter_conda_by_keywords sample_conda (map VStr sample_keywords) true [] =
  ((map (match_line sample_keywords)
      (filter (selected (map VStr sample_keywords)) sample_conda)
    ++ [TotalMatches
          (length (filter (selected (map VStr sample_keywords)) sample_conda))])%list,
   Ok (filter (selected (map VStr sample_keywords)) sample_conda)).
Proof.
  apply (filter_prints_matches sample_conda sample_keywords); reflexivity.
Defined.

Lemma filter_steps_ext (ks ks' : list value) (items : list (key * value))
  (st : dict * nat) :
  (forall recipe, selects ks recipe = selects ks' recipe) ->
  filter_steps ks items st = filter_steps ks' items st.
Proof.
  intro H. revert st. induction items as [|item items IH]; intros st; simpl.
  - reflexivity.
  - unfold filter_step. rewrite H.
    destruct (selects ks' (snd item)) as [b|]; [apply IH|reflexivity].
Qed.

(** X7: what the filter returns or raises depends on which strings are
    among the keywords, not on their order or on repetitions. *)
Theorem filter_keyword_set (conda : dict) (kws kws' : list string)
  (verbose : bool) :
  (forall kw, In kw kws <-> In kw kws') ->
  returned (filter_conda_by_keywords conda (map VStr kws) verbose)
  = returned (filter_conda_by_keywords conda (map VStr kws') verbose).
Proof.
  intro H. unfold returned. rewrite !filter_result.
  rewrite (filter_steps_ext (map VStr kws) (map VStr kws')); [reflexivity|].
  intro recipe. destruct (search_text recipe) as [text|e] eqn:Ht.
  - rewrite !(selects_strings _ recipe text Ht). f_equal.
    destruct (existsb (fun kw => keyword_hit text (lower kw)) kws') eqn:E.
    + apply existsb_exists in E as (kw & Hin & Hkw). apply existsb_exists.
      exists kw. split; [now apply H|assumption].
    + destruct (existsb (fun kw => keyword_hit text (lower kw)) kws) eqn:F;
        [|reflexivity].
      apply existsb_exists in F as (kw & Hin & Hkw).
      assert (existsb (fun kw => keyword_hit text (lower kw)) kws' = true).
      { apply existsb_exists. exists kw. split; [now apply H|assumption]. }
      congruence.
  - unfold selects. now rewrite Ht.
Qed.

Lemma filter_keyword_set_witness :
  returned (filter_conda_by_keywords sample_conda
              (map VStr ["16S"; "microbiome"; "16S"]) false)
  = returned (filter_conda_by_keywords sample_conda
                (map VStr ["microbiome"; "16S"]) false).
Proof.
  apply (filter_keyword_set sample_conda ["16S"; "microbiome"; "16S"]
           ["microbiome"; "16S"] false).
  intro kw. simpl. tauto.
Defined.

Lemma filter_returns_wf (conda : dict) (kws : list string) (verbose : bool) :
  dict_wf conda = true ->
  forallb is_recipe (map snd conda) = true ->
  returned (filter_conda_by_keywords conda (map VStr kws) verbose)
  = Ok (filter (selected (map VStr kws)) conda).
Proof.
  intros Hwf Hrec. rewrite filter_returns by assumption.
  now rewrite store_filter_wf.
Qed.

Lemma selected_app (kws1 kws2 : list string) (item : key * value) :
  is_recipe (snd item) = true ->
  selected (map VStr (kws1 ++ kws2)) item
  = selected (map VStr kws1) item || selected (map VStr kws2) item.
Proof.
  intro H. destruct (is_recipe_search_text _ H) as [text Ht].
  rewrite !(selected_strings _ item text Ht). apply existsb_app.
Qed.

(** X8: filtering with two keyword lists joined keeps exactly the entries
    that filtering with either list keeps; adding keywords never drops an
    entry. *)
Theorem filter_more_keywords (conda : dict) (kws1 kws2 : list string)
  (verbose : bool) :
  dict_wf conda = true ->
  forallb is_recipe (map snd conda) = true ->
  exists R1 R2 R12,
    returned (filter_conda_by_keywords conda (map VStr kws1) verbose) = Ok R1 /\
    returned (filter_conda_by_keywords conda (map VStr kws2) verbose) = Ok R2 /\
    returned (filter_conda_by_keywords conda (map VStr (kws1 ++ kws2)%list) verbose)
    = Ok R12 /\
    forall item, In item R12 <-> In item R1 \/ In item R2.
Proof.
  intros Hwf Hrec.
  exists (filter (selected (map VStr kws1)) conda),
         (filter (selected (map VStr kws2)) conda),
         (filter (selected (map VStr (kws1 ++ kws2))) conda).
  rewrite !filter_returns_wf by assumption. repeat split; try reflexivity.
  - intro H. apply filter_In in H as [Hin Hsel].
    rewrite selected_app in Hsel.
    + apply orb_prop in Hsel as [Hsel|Hsel]; [left|right];
        apply filter_In; auto.
    + rewrite forallb_forall in Hrec. apply Hrec, in_map, Hin.
  - intros [H|H]; apply filter_In in H as [Hin Hsel]; apply filter_In;
      (split; [assumption|]); rewrite selected_app;
      try (rewrite forallb_forall in Hrec; apply Hrec, in_map, Hin);
      rewrite Hsel; [reflexivity|apply orb_true_r].
Qed.

Lemma filter_more_keywords_witness :
  exists R1 R2 R12,
    returned (filter_conda_by_keywords sample_conda (map VStr ["16S"]) false)
    = Ok R1 /\
    returned (filter_conda_by_keywords sample_conda (map VStr ["metagenom*"]) false)
    = Ok R2 /\
    returned (filter_conda_by_keywords sample_conda
                (map VStr (["16S"] ++ ["metagenom*"])%list) false)
    = Ok R12 /\
    forall item, In item R12 <-> In item R1 \/ In item R2.
Proof.
  apply (filter_more_keywords sample_conda ["16S"] ["metagenom*"] false);
    reflexivity.
Defined.

Lemma filter_filter {A : Type} (f g : A -> bool) (l : list A) :
  filter g (filter f l) = filter (fun x => f x && g x) l.
Proof.
  induction l as [|x l IH]; simpl; [reflexivity|].
  destruct (f x); simpl; [destruct (g x)|]; now rewrite IH.
Qed.

Lemma filter_recipes (f : key * value -> bool) (conda : dict) :
  forallb is_recipe (map snd conda) = true ->
  forallb is_recipe (map snd (filter f conda)) = true.
Proof.
  rewrite !forallb_forall. intros H recipe Hin.
  apply in_map_iff in Hin as (item & <- & Hin).
  apply filter_In in Hin as [Hin _]. apply H, in_map, Hin.
Qed.

(** X9: filtering with one keyword list and then with another keeps the
    entries both lists select, so the two filters can be applied in either
    order. *)
Theorem filter_twice_commutes (conda : dict) (kws1 kws2 : list string)
  (verbose : bool) :
  dict_wf conda = true ->
  forallb is_recipe (map snd conda) = true ->
  (R1 <- returned (filter_conda_by_keywords conda (map VStr kws1) verbose) ;;
   returned (filter_conda_by_keywords R1 (map VStr kws2) verbose))
  = Ok (filter (fun item => selected (map VStr kws1) item
                             && selected (map VStr kws2) item) conda) /\
  (R1 <- returned (filter_conda_by_keywords conda (map VStr kws1) verbose) ;;
   returned (filter_conda_by_keywords R1 (map VStr kws2) verbose))
  = (R2 <- returned (filter_conda_by_keywords conda (map VStr kws2) verbose) ;;
     returned (filter_conda_by_keywords R2 (map VStr kws1) verbose)).
Proof.
  intros Hwf Hrec.
  assert (Hone : forall a b,
    (R1 <- returned (filter_conda_by_keywords conda (map VStr a) verbose) ;;
     returned (filter_conda_by_keywords R1 (map VStr b) verbose))
    = Ok (filter (fun item => selected (map VStr a) item
                              && selected (map VStr b) item) conda)).
  { intros a b. rewrite filter_returns_wf by assumption. cbn [bind].
    rewrite filter_returns_wf by (now apply filter_wf || now apply filter_recipes).
    now rewrite filter_filter. }
  split; [apply Hone|]. rewrite !Hone. f_equal.
  apply filter_ext. intro item. apply andb_comm.
Qed.

Lemma filter_twice_commutes_witness :
  (R1 <- returned (filter_conda_by_keywords sample_conda (map VStr ["metagenom*"]) false) ;;
   returned (filter_conda_by_keywords R1 (map VStr ["16S"]) false))
  = Ok (filter (fun item => selected (map VStr ["metagenom*"]) item
                             && selected (map VStr ["16S"]) item) sample_conda) /\
  (R1 <- returned (filter_conda_by_keywords sample_conda (map VStr ["metagenom*"]) false) ;;
   returned (filter_conda_by_keywords R1 (map VStr ["16S"]) false))
  = (R2 <- returned (filter_conda_by_keywords sample_conda (map VStr ["16S"]) false) ;;
     returned (filter_conda_by_keywords R2 (map VStr ["metagenom*"]) false)).
Proof.
  apply (filter_twice_commutes sample_conda ["metagenom*"] ["16S"] false);
    reflexivity.
Defined.

(** X10: an empty collection is returned empty whatever the keywords are,
    strings or not, and with [verbose=True] only the total of zero is
    printed; an empty keyword list keeps no recipe. *)
Theorem filter_empty_inputs (conda : dict) (keywords : list value)
  (verbose : bool) :
  forallb is_recipe (map snd conda) = true ->
  filter_conda_by_keywords [] keywords verbose []
  = ((if verbose then [TotalMatches 0] else []), Ok []) /\
  returned (filter_conda_by_keywords conda [] verbose) = Ok [].
Proof.
  intro Hrec. split; [now destruct verbose|].
  change (@nil value) with (map VStr []). rewrite filter_returns by assumption.
  f_equal. induction conda as [|item conda IH]; [reflexivity|].
  simpl in Hrec. apply andb_prop in Hrec as [Hitem Hrec]. cbn [filter].
  destruct (is_recipe_search_text _ Hitem) as [text Ht].
  rewrite (selected_strings [] item text Ht). cbn [existsb]. now apply IH.
Qed.

Lemma filter_empty_inputs_witness :
  filter_conda_by_keywords [] [VInt 16; VNone] true []
  = ((if true then [TotalMatches 0] else []), Ok []) /\
  returned (filter_conda_by_keywords sample_conda [] true) = Ok [].
Proof.
  apply (filter_empty_inputs sample_conda [VInt 16; VNone] true). reflexivity.
Defined.

Lemma matched_keywords_not_string (text : string) (keywords matched : list value)
  (kw : value) :
  In kw keywords -> (forall s, kw <> VStr s) ->
  matched_keywords text keywords matched
  = Raise (AttributeError "object has no attribute 'lower'").
Proof.
  intros Hin Hkw. revert matched.
  induction keywords as [|k keywords IH]; intros matched; [destruct Hin|].
  simpl. destruct Hin as [->|Hin].
  - destruct kw as [| | |s| |]; try reflexivity. now destruct (Hkw s).
  - destruct k as [| | |s| |]; try reflexivity. cbn [py_lower bind]. now apply IH.
Qed.

(** X11: a keyword that is not a string, such as a number written without
    quotes in the keyword file, makes the filter raise [AttributeError] at
    the first recipe, before anything is printed or kept. *)
Theorem filter_non_string_keyword (name : key) (recipe : value) (rest : dict)
  (keywords : list value) (kw : value) (verbose : bool) :
  is_recipe recipe = true ->
  In kw keywords ->
  (forall s, kw <> VStr s) ->
  filter_conda_by_keywords ((name, recipe) :: rest) keywords verbose []
  = ([], Raise (AttributeError "object has no attribute 'lower'")).
Proof.
  intros Hrec Hin Hkw. destruct (is_recipe_search_text _ Hrec) as [text Ht].
  unfold filter_conda_by_keywords, io_bind. simpl.
  unfold io_bind, lift. rewrite Ht.
  now rewrite (matched_keywords_not_string text keywords [] kw Hin Hkw).
Qed.

Lemma filter_non_string_keyword_witness :
  filter_conda_by_keywords ((KStr "pkg1", doc_pkg1) :: [(KStr "pkg2", doc_pkg2)])
    [VStr "microbiome"; VInt 16] true []
  = ([], Raise (AttributeError "object has no attribute 'lower'")).
Proof.
  apply (filter_non_string_keyword (KStr "pkg1") doc_pkg1 [(KStr "pkg2", doc_pkg2)]
           [VStr "microbiome"; VInt 16] (VInt 16) true).
  - reflexivity.
  - simpl. right. left. reflexivity.
  - intros s H. discriminate H.
Defined.

(** X12: with string keywords the filter returns a collection exactly when
    every recipe of the input, kept or not, is a recipe of the data model:
    one recipe of another shape anywhere makes the whole call raise. *)
Theorem filter_returns_iff (conda : dict) (kws : list string) (verbose : bool) :
  (exists R, returned (filter_conda_by_keywords conda (map VStr kws) verbose) = Ok R)
  <-> forallb is_recipe (map snd conda) = true.
Proof.
  split.
  - intros [R HR]. apply filter_returned in HR as [_ Hok].
    apply forallb_forall. intros recipe Hin.
    apply in_map_iff in Hin as (item & <- & Hin).
    destruct (Hok item Hin) as [b Hb]. unfold selects in Hb.
    destruct (search_text (snd item)) as [text|] eqn:Ht; [|discriminate].
    now apply (search_text_is_recipe _ text).
  - intro H. eexists. now apply filter_returns.
Qed.

Lemma filter_steps_raise (keywords : list value) (before after : list (key * value))
  (item : key * value) (st : dict * nat) (e : exn) :
  (forall it, In it before -> exists b, selects keywords (snd it) = Ok b) ->
  selects keywords (snd item) = Raise e ->
  filter_steps keywords (before ++ item :: after) st = Raise e.
Proof.
  revert st. induction before as [|it before IH]; intros st Hok He; simpl.
  - unfold filter_step. now rewrite He.
  - destruct (Hok it (or_introl eq_refl)) as [b Hb]. unfold filter_step at 1.
    rewrite Hb. cbn [bind]. apply IH; [|assumption]. intros; apply Hok. now right.
Qed.

(** X13: a recipe whose [about] section is there but empty (it parses to
    [None]) makes the filter raise [AttributeError], once the recipes before
    it have been gone through; a missing section does not. *)
Theorem filter_empty_about_section (before after : dict) (name : key) (d : dict)
  (kws : list string) (verbose : bool) :
  forallb is_recipe (map snd before) = true ->
  dict_get d (KStr "about") = Some VNone ->
  returned (filter_conda_by_keywords (before ++ (name, VDict d) :: after)%list
              (map VStr kws) verbose)
  = Raise (AttributeError "object has no attribute 'get'").
Proof.
  intros Hrec Habout. unfold returned. rewrite filter_result.
  rewrite (filter_steps_raise _ before after (name, VDict d) _
             (AttributeError "object has no attribute 'get'")); [reflexivity| |].
  - intros it Hin. rewrite forallb_forall in Hrec.
    destruct (is_recipe_search_text (snd it)) as [text Ht];
      [apply Hrec, in_map, Hin|].
    eexists. eapply selects_strings. exact Ht.
  - unfold selects, search_text. simpl. now rewrite Habout.
Qed.

Lemma filter_empty_about_section_witness :
  returned (filter_conda_by_keywords
              ([(KStr "pkg1", doc_pkg1)] ++ (KStr "bare", doc_no_about) :: [])%list
              (map VStr ["16S"]) false)
  = Raise (AttributeError "object has no attribute 'get'").
Proof.
  apply (filter_empty_about_section [(KStr "pkg1", doc_pkg1)] [] (KStr "bare")
           [(KStr "package", VDict [(KStr "name", VStr "bare")]);
            (KStr "about", VNone)] ["16S"] false);
    reflexivity.
Defined.

(** ** Further properties of the keyword test *)

Lemma fnmatch_star_any (word : string) : fnmatch word "*" = true.
Proof.
  unfold fnmatch. change (translate "*") with [GStar].
  apply glob_match_star. exists word, EmptyString.
  now rewrite app_empty_r.
Qed.

(** X14: the keyword [*] selects exactly the recipes whose search text holds
    something else than whitespace; a recipe without description and summary
    is not selected by it. *)
Theorem star_alone (recipe : value) (text : string) :
  search_text recipe = Ok text ->
  selects [VStr "*"] recipe = Ok (negb (blank text)).
Proof.
  intro Ht. rewrite (selects_one recipe text "*" Ht). f_equal.
  change (keyword_hit text (lower "*"))
    with (existsb (fun word => fnmatch word "*") (split text)).
  destruct (split text) as [|w ws] eqn:E.
  - apply split_ws_nil in E as [_ ->]. reflexivity.
  - simpl. rewrite fnmatch_star_any. simpl.
    destruct (blank text) eqn:B; [|reflexivity].
    assert (split text = []) by (apply split_ws_nil; auto). congruence.
Qed.

Lemma star_alone_witness :
  selects [VStr "*"] (VDict [(KStr "package", VDict [(KStr "name", VStr "bare")])])
  = Ok (negb (blank " ")).
Proof.
  apply (star_alone (VDict [(KStr "package", VDict [(KStr "name", VStr "bare")])]) " ").
  reflexivity.
Defined.

Lemma str_in_middle (p q : string) : str_in "*" (p ++ "*" ++ q) = true.
Proof. apply str_in_spec. now exists p, q. Qed.

(** X15: in a keyword with a star, whitespace outside brackets never
    matches, because the pattern is tried on one token at a time: a keyword
    made of two literal parts around a star, one of which holds a whitespace
    character, selects no recipe. *)
Theorem wildcard_with_space (recipe : value) (text kw p q : string) :
  search_text recipe = Ok text ->
  lower kw = p ++ "*" ++ q ->
  plain p = true -> plain q = true ->
  no_space (p ++ q) = false ->
  selects [VStr kw] recipe = Ok false.
Proof.
  intros Ht Hkw Hp Hq Hspace. rewrite (selects_one recipe text kw Ht). f_equal.
  unfold keyword_hit. rewrite Hkw, str_in_middle.
  destruct (existsb _ (split text)) eqn:E; [|reflexivity].
  apply existsb_exists in E as (word & Hin & Hm).
  apply split_tokens in Hin as (_ & Hns & _).
  apply (fnmatch_star p q word Hp Hq) in Hm as [run ->].
  rewrite !no_space_app in Hns. rewrite no_space_app in Hspace.
  apply andb_prop in Hns as [H1 H2]. apply andb_prop in H2 as [_ H2].
  now rewrite H1, H2 in Hspace.
Qed.

Lemma wildcard_with_space_witness :
  selects [VStr "16S r*"] doc_pkg1 = Ok false.
Proof.
  apply (wildcard_with_space doc_pkg1 " analysis of 16s rrna microbial communities"
           "16S r*" "16s r" EmptyString);
    reflexivity.
Defined.

Lemma startswith_before_space (a b p : string) (c : ascii) :
  is_space c = true -> no_space p = true ->
  startswith (a ++ String c b) p = true -> startswith a p = true.
Proof.
  intros Hc. revert a. induction p as [|x p IH]; intros a Hp; [reflexivity|].
  simpl in Hp. apply andb_prop in Hp as [Hx Hp].
  destruct a as [|y a]; simpl.
  - intro H. apply andb_prop in H as [H _]. apply ascii_eqb_eq in H. subst.
    now rewrite Hc in Hx.
  - intro H. apply andb_prop in H as [-> H]. simpl. now apply IH.
Qed.

Lemma str_in_around_space (a b p : string) (c : ascii) :
  is_space c = true -> no_space p = true ->
  str_in p (a ++ String c b) = true ->
  str_in p a = true \/ str_in p b = true.
Proof.
  intros Hc Hp. induction a as [|y a IH].
  - cbn [append str_in]. intro H. apply orb_prop in H as [H|H]; [left|now right].
    apply (startswith_before_space EmptyString b p c Hc Hp) in H.
    simpl. now rewrite H.
  - cbn [append str_in]. intro H. apply orb_prop in H as [H|H].
    + left. apply (startswith_before_space (String y a) b p c Hc Hp) in H.
      now rewrite H.
    + destruct (IH H) as [Ha|Hb]; [left|now right].
      rewrite Ha. apply orb_true_r.
Qed.

Lemma str_in_nonempty (p s : string) :
  is_empty p = false -> str_in p s = true -> is_empty s = false.
Proof. destruct p; [discriminate|]. now destruct s. Qed.

Lemma split_ws_holds (p s word : string) :
  no_space word = true -> no_space p = true -> is_empty p = false ->
  str_in p (word ++ s) = true ->
  exists w, In w (split_ws s word) /\ str_in p w = true.
Proof.
  intros Hword Hp Hne. revert word Hword.
  induction s as [|c s IH]; intros word Hword H.
  - rewrite app_empty_r in H. simpl.
    rewrite (str_in_nonempty p word Hne H). exists word. split; [now left|assumption].
  - simpl. destruct (is_space c) eqn:Hc.
    + apply (str_in_around_space word s p c Hc Hp) in H as [H|H].
      * rewrite (str_in_nonempty p word Hne H). exists word.
        split; [now left|assumption].
      * destruct (IH EmptyString eq_refl H) as (w & Hin & Hw). exists w.
        split; [|assumption]. destruct (is_empty word); [assumption|now right].
    + apply IH.
      * rewrite no_space_app, Hword. simpl. now rewrite Hc.
      * now rewrite app_assoc_str.
Qed.

Lemma fnmatch_star_both (p word : string) :
  plain p = true ->
  fnmatch word ("*" ++ p ++ "*") = str_in p word.
Proof.
  intro Hp. unfold fnmatch, translate.
  change (translate_from 0 ("*" ++ p ++ "*"))
    with (GStar :: translate_from 0 (p ++ "*")).
  rewrite translate_plain by assumption.
  change (translate_from 0 "*") with [GStar].
  destruct (str_in p word) eqn:E.
  - apply str_in_spec in E as (pre & post & ->).
    apply glob_match_star. exists pre, (p ++ post). split; [reflexivity|].
    apply glob_match_literals. exists post. split; [reflexivity|].
    apply glob_match_star. exists post, EmptyString. now rewrite app_empty_r.
  - destruct (glob_match _ word) eqn:G; [|reflexivity].
    apply glob_match_star in G as (run & w' & -> & G).
    apply glob_match_literals in G as (w'' & -> & _).
    assert (str_in p (run ++ p ++ w'') = true)
      by (apply str_in_spec; now exists run, w'').
    congruence.
Qed.

Lemma lower_idem (s : string) : lower (lower s) = lower s.
Proof.
  induction s as [|c s IH]; simpl; [reflexivity|]. rewrite IH. f_equal.
  destruct c as [[] [] [] [] [] [] [] []]; reflexivity.
Qed.

Lemma lower_cancel (p s : string) : lower p ++ s = p ++ s -> lower p = p.
Proof.
  induction p as [|c p IH]; simpl; [reflexivity|].
  intros [= Hc H]. rewrite Hc. f_equal. now apply IH.
Qed.

Lemma plain_no_star (p : string) : plain p = true -> str_in "*" p = false.
Proof.
  induction p as [|c p IH]; simpl; [reflexivity|]. intro H.
  apply andb_prop in H as [H Hp]. apply andb_prop in H as [H _].
  apply andb_prop in H as [H _]. apply negb_true_iff in H.
  rewrite (Ascii.eqb_sym "*"), H, IH by assumption. reflexivity.
Qed.

(** X16: a keyword that is a literal part between two stars, the part being
    non-empty and without whitespace, selects the same recipes as the
    literal part alone does as a keyword: those whose search text holds it
    somewhere. *)
Theorem star_both_sides (recipe : value) (text kw p : string) :
  search_text recipe = Ok text ->
  lower kw = "*" ++ p ++ "*" ->
  plain p = true -> no_space p = true -> is_empty p = false ->
  selects [VStr kw] recipe = Ok (str_in p text) /\
  selects [VStr kw] recipe = selects [VStr p] recipe.
Proof.
  intros Ht Hkw Hp Hns Hne.
  assert (Hstar : selects [VStr kw] recipe = Ok (str_in p text)).
  { rewrite (selects_one recipe text kw Ht). f_equal.
    unfold keyword_hit. rewrite Hkw.
    change ("*" ++ p ++ "*") with (EmptyString ++ "*" ++ p ++ "*") at 1.
    rewrite str_in_middle.
    destruct (str_in p text) eqn:E.
    - destruct (split_ws_holds p text EmptyString eq_refl Hns Hne E)
        as (w & Hin & Hw).
      apply existsb_exists. exists w. split; [assumption|].
      now rewrite fnmatch_star_both.
    - destruct (existsb _ (split text)) eqn:F; [|reflexivity].
      apply existsb_exists in F as (w & Hin & Hw).
      rewrite fnmatch_star_both in Hw by assumption.
      apply split_tokens in Hin as (_ & _ & pre & post & ->).
      apply str_in_spec in Hw as (a & b & ->).
      assert (str_in p (pre ++ (a ++ p ++ b) ++ post) = true).
      { apply str_in_spec. exists (pre ++ a), (b ++ post).
        now rewrite !app_assoc_str. }
      congruence. }
  split; [exact Hstar|]. rewrite Hstar, (selects_one recipe text p Ht).
  f_equal. unfold keyword_hit.
  assert (Hlow : lower p = p).
  { pose proof (f_equal lower Hkw) as Hl.
    rewrite lower_idem, Hkw, !lower_app in Hl.
    change (lower "*") with "*" in Hl. simpl in Hl.
    injection Hl as Hl. symmetry in Hl. now apply lower_cancel in Hl. }
  now rewrite Hlow, plain_no_star.
Qed.

Lemma star_both_sides_witness :
  selects [VStr "*Metagenom*"] recipe_asm = Ok (str_in "metagenom" "genome assembly") /\
  selects [VStr "*Metagenom*"] recipe_asm = selects [VStr "metagenom"] recipe_asm.
Proof.
  apply (star_both_sides recipe_asm "genome assembly" "*Metagenom*" "metagenom");
    reflexivity.
Defined.

(** X22: the case of the description and the summary does not count: two
    recipes whose texts differ in case only are selected alike by every
    keyword list. *)
Theorem text_case_insensitive (keywords : list value) (r r' : value)
  (about about' : dict) (d s d' s' : string) :
  about_section r = Some about ->
  text_field about "description" = Some d ->
  text_field about "summary" = Some s ->
  about_section r' = Some about' ->
  text_field about' "description" = Some d' ->
  text_field about' "summary" = Some s' ->
  lower d = lower d' -> lower s = lower s' ->
  selects keywords r = selects keywords r'.
Proof.
  intros Ha Hd Hs Ha' Hd' Hs' Hld Hls. unfold selects.
  rewrite (search_text_recipe r about d s Ha Hd Hs).
  rewrite (search_text_recipe r' about' d' s' Ha' Hd' Hs').
  now rewrite !lower_app, Hld, Hls.
Qed.

Lemma text_case_insensitive_witness :
  selects [VStr "GENOME*"; VStr "assembly"] recipe_asm
  = selects [VStr "GENOME*"; VStr "assembly"]
      (VDict [(KStr "about", VDict [(KStr "summary", VStr "ASSEMBLY");
                                    (KStr "description", VStr "genome")])]).
Proof.
  apply (text_case_insensitive [VStr "GENOME*"; VStr "assembly"] recipe_asm
           (VDict [(KStr "about", VDict [(KStr "summary", VStr "ASSEMBLY");
                                         (KStr "description", VStr "genome")])])
           [(KStr "summary", VStr "assembly"); (KStr "description", VStr "Genome")]
           [(KStr "summary", VStr "ASSEMBLY"); (KStr "description", VStr "genome")]
           "Genome" "assembly" "genome" "ASSEMBLY");
    reflexivity.
Defined.

(** ** Further properties of the keyword loader and of the main program *)

Lemma keywords_of_run (keyword_file : string) (data : value) (out : list line) :
  keywords_of keyword_file data out =
  match data with
  | VDict d =>
      match dict_get d (KStr "keywords") with
      | Some (VList l) => ((out ++ [Loaded (length l) keyword_file])%list, Ok l)
      | _ => (out, snd (keywords_of keyword_file data out))
      end
  | _ => (out, snd (keywords_of keyword_file data out))
  end.
Proof.
  unfold keywords_of, keywords_missing, io_bind, lift, print, io_ret.
  destruct data as [|b|z|s|l|d]; simpl.
  - reflexivity.
  - now destruct b.
  - now destruct (Z.eqb z 0).
  - destruct (is_empty s); [reflexivity|]. simpl.
    now destruct (str_in "keywords" s).
  - destruct l; [reflexivity|]. simpl.
    now destruct (is_str "keywords" v || existsb (is_str "keywords") l).
  - destruct d as [|item d]; [reflexivity|].
    cbn [negb bind]. unfold dict_has.
    destruct (dict_get (item :: d) (KStr "keywords")) as [[| | | |l|]|];
      reflexivity.
Qed.

Lemma keywords_of_ok (keyword_file : string) (data : value) (out : list line)
  (l : list value) :
  snd (keywords_of keyword_file data out) = Ok l ->
  exists d, data = VDict d /\ dict_get d (KStr "keywords") = Some (VList l).
Proof.
  unfold keywords_of, keywords_missing, io_bind, lift, print, io_ret.
  destruct data as [|b|z|s|vs|d]; simpl.
  - discriminate.
  - now destruct b.
  - now destruct (Z.eqb z 0).
  - destruct (is_empty s); [discriminate|]. simpl.
    now destruct (str_in "keywords" s).
  - destruct vs; [discriminate|]. simpl.
    now destruct (is_str "keywords" v || existsb (is_str "keywords") vs).
  - destruct d as [|item d]; [discriminate|].
    cbn [negb bind]. unfold dict_has. intro H. exists (item :: d). split; [reflexivity|].
    destruct (dict_get (item :: d) (KStr "keywords")) as [[| | | |l'|]|];
      try discriminate. simpl in H. now injection H as ->.
Qed.

(** X17: [load_keywords_from_yaml] returns a list only when the file reads
    and parses to a mapping that holds a list under [keywords]; it returns
    that list as it is and prints the one line that tells its length. *)
Theorem load_keywords_returns (ext : externals) (keyword_file : string)
  (l : list value) :
  returned (load_keywords_from_yaml ext keyword_file) = Ok l ->
  (exists text d,
     read_text ext keyword_file = Some text /\
     safe_load ext text = Some (VDict d) /\
     dict_get d (KStr "keywords") = Some (VList l)) /\
  printed (load_keywords_from_yaml ext keyword_file)
  = [Loaded (length l) keyword_file].
Proof.
  unfold returned, printed, load_keywords_from_yaml.
  destruct (read_text ext keyword_file) as [text|] eqn:Hread; [|discriminate].
  destruct (safe_load ext text) as [data|] eqn:Hload; [|discriminate].
  intro H. destruct (keywords_of_ok _ _ _ _ H) as (d & -> & Hd). split.
  - exists text, d. auto.
  - rewrite keywords_of_run, Hd. reflexivity.
Qed.

Lemma load_keywords_returns_witness :
  (exists text d,
     read_text faulty "numbers.yaml" = Some text /\
     safe_load faulty text = Some (VDict d) /\
     dict_get d (KStr "keywords") = Some (VList [VInt 16])) /\
  printed (load_keywords_from_yaml faulty "numbers.yaml")
  = [Loaded (length [VInt 16]) "numbers.yaml"].
Proof.
  apply (load_keywords_returns faulty "numbers.yaml" [VInt 16]). reflexivity.
Defined.

(** X18: when [load_keywords_from_yaml] raises, it has printed nothing. *)
Theorem load_keywords_raises_silently (ext : externals) (keyword_file : string)
  (e : exn) (out : list line) :
  snd (load_keywords_from_yaml ext keyword_file out) = Raise e ->
  fst (load_keywords_from_yaml ext keyword_file out) = out.
Proof.
  unfold load_keywords_from_yaml.
  destruct (read_text ext keyword_file) as [text|]; [|reflexivity].
  destruct (safe_load ext text) as [data|]; [|reflexivity].
  rewrite keywords_of_run. destruct data as [| | | | |d]; try reflexivity.
  destruct (dict_get d (KStr "keywords")) as [[| | | |l|]|]; try reflexivity.
  discriminate.
Qed.

Lemma load_keywords_raises_silently_witness :
  fst (load_keywords_from_yaml faulty "empty.yaml" []) = [].
Proof.
  apply (load_keywords_raises_silently faulty "empty.yaml"
           (ValueError ("No 'keywords' key found in " ++ "empty.yaml")) []).
  reflexivity.
Defined.

(** X19: a run of the main program that ends with an exception has left no
    complete output file: it has touched no file at all, unless it was
    [json.dump] itself that raised after the requested file had been
    opened, and then that file is left broken. *)
Theorem main_raises_without_output (ext : externals) (can_open : string -> bool)
  (dump_error : dict -> option exn)
  (bioconda_path keywords_file output_file : string) (e : exn) :
  run_end (main ext can_open dump_error bioconda_path keywords_file output_file)
  = Raise e ->
  run_files (main ext can_open dump_error bioconda_path keywords_file output_file)
  = [] \/
  (can_open output_file = true /\
   (exists conda_filtered, dump_error conda_filtered = Some e) /\
   run_files (main ext can_open dump_error bioconda_path keywords_file output_file)
   = [(output_file, Broken)]).
Proof.
  unfold main.
  destruct ((keywords <~ load_keywords_from_yaml ext keywords_file ;;
             conda <~ lift (parse_bioconda ext bioconda_path) ;;
             filter_conda_by_keywords conda keywords true) [])
    as [out [R|e']]; [|now left].
  unfold save_filtered_conda_to_json. simpl.
  destruct (can_open output_file); [|now left].
  destruct (dump_error R) as [e0|] eqn:Hd; simpl; [|discriminate].
  intros [= ->]. right. split; [reflexivity|]. split; [now exists R|reflexivity].
Qed.

Lemma main_raises_without_output_witness :
  run_files (main faulty writable dump_fails "good" "keywords.yaml" "out.json")
  = [] \/
  (writable "out.json" = true /\
   (exists conda_filtered,
      dump_fails conda_filtered
      = Some (TypeError "Object of type date is not JSON serializable")) /\
   run_files (main faulty writable dump_fails "good" "keywords.yaml" "out.json")
   = [("out.json", Broken)]).
Proof.
  apply (main_raises_without_output faulty writable dump_fails "good"
           "keywords.yaml" "out.json"
           (TypeError "Object of type date is not JSON serializable")).
  reflexivity.
Defined.

(** X20: the keyword file is dealt with first: when it cannot be loaded the
    main program ends with the keyword loader's exception, whatever the
    recipe directory holds, and has printed and written nothing. *)
Theorem main_keywords_first (ext : externals) (can_open : string -> bool)
  (dump_error : dict -> option exn)
  (bioconda_path keywords_file output_file : string) (e : exn) :
  returned (load_keywords_from_yaml ext keywords_file) = Raise e ->
  main ext can_open dump_error bioconda_path keywords_file output_file
  = {| run_out := []; run_files := []; run_end := Raise e |}.
Proof.
  unfold returned. intro H.
  pose proof (load_keywords_raises_silently ext keywords_file e [] H) as Hout.
  unfold main, io_bind.
  destruct (load_keywords_from_yaml ext keywords_file []) as [out r].
  simpl in H, Hout. subst. reflexivity.
Qed.

Lemma main_keywords_first_witness :
  main faulty writable dumps "unparsed" "empty.yaml" "out.json"
  = {| run_out := []; run_files := [];
       run_end := Raise (ValueError ("No 'keywords' key found in " ++ "empty.yaml")) |}.
Proof.
  apply (main_keywords_first faulty writable dumps "unparsed" "empty.yaml" "out.json").
  reflexivity.
Defined.

Lemma filter_body_frame (keywords : list value) (verbose : bool)
  (st : dict * nat) (item : key * value) (out : list line) :
  fst (filter_body keywords verbose st item out)
  = (out ++ fst (filter_body keywords verbose st item []))%list.
Proof.
  destruct st as [f n], item as [name recipe].
  unfold filter_body, io_bind, lift, io_ret, print. simpl.
  destruct (search_text recipe) as [text|]; [|now rewrite app_nil_r].
  destruct (matched_keywords text keywords []) as [[|kw m]|];
    try now rewrite app_nil_r.
  destruct verbose; simpl; [reflexivity|now rewrite app_nil_r].
Qed.

Lemma for_each_frame (keywords : list value) (verbose : bool)
  (items : list (key * value)) (st : dict * nat) (out : list line) :
  fst (for_each (filter_body keywords verbose) items st out)
  = (out ++ fst (for_each (filter_body keywords verbose) items st []))%list.
Proof.
  revert st out. induction items as [|item items IH]; intros st out.
  - simpl. now rewrite app_nil_r.
  - cbn [for_each]. unfold io_bind.
    pose proof (filter_body_frame keywords verbose st item out) as Hf.
    pose proof (filter_body_result keywords verbose st item out) as Hr.
    pose proof (filter_body_result keywords verbose st item []) as Hr0.
    destruct (filter_body keywords verbose st item out) as [o r].
    destruct (filter_body keywords verbose st item []) as [o0 r0].
    simpl in Hf, Hr, Hr0. subst o. rewrite Hr, <- Hr0.
    destruct r0 as [st'|e]; simpl; [|reflexivity].
    rewrite (IH st' (out ++ o0)%list), (IH st' o0). now rewrite app_assoc.
Qed.

Lemma filter_frame (conda : dict) (keywords : list value) (verbose : bool)
  (out : list line) :
  filter_conda_by_keywords conda keywords verbose out
  = ((out ++ printed (filter_conda_by_keywords conda keywords verbose))%list,
     returned (filter_conda_by_keywords conda keywords verbose)).
Proof.
  unfold printed, returned, filter_conda_by_keywords, io_bind.
  pose proof (for_each_frame keywords verbose conda ([], 0%nat) out) as Hf.
  pose proof (for_each_result keywords verbose conda ([], 0%nat) out) as Hr.
  pose proof (for_each_result keywords verbose conda ([], 0%nat) []) as Hr0.
  destruct (for_each (filter_body keywords verbose) conda ([], 0%nat) out) as [o r].
  destruct (for_each (filter_body keywords verbose) conda ([], 0%nat) []) as [o0 r0].
  simpl in Hf, Hr, Hr0. subst o. rewrite Hr, <- Hr0.
  destruct r0 as [st|e]; simpl; [|reflexivity].
  unfold print, io_ret. destruct verbose; simpl; [|reflexivity].
  now rewrite app_assoc.
Qed.

(** X21: when the keywords load, the recipes load, the filter returns, the
    output file can be opened and [json.dump] does not raise on the filtered
    collection, the main program writes exactly one file, the one asked for,
    holding the collection the filter returned; it has printed the keyword
    count, then the filter's lines with [verbose=True], then the
    confirmation.  When [json.dump] raises instead, the run ends with its
    exception, the file is left broken and no confirmation is printed. *)
Theorem main_writes_filtered (ext : externals) (can_open : string -> bool)
  (dump_error : dict -> option exn)
  (bioconda_path keywords_file output_file : string)
  (keywords : list value) (conda R : dict) :
  returned (load_keywords_from_yaml ext keywords_file) = Ok keywords ->
  parse_bioconda ext bioconda_path = Ok conda ->
  returned (filter_conda_by_keywords conda keywords true) = Ok R ->
  can_open output_file = true ->
  main ext can_open dump_error bioconda_path keywords_file output_file
  = match dump_error R with
    | None =>
        {| run_out :=
             (Stdout (Loaded (length keywords) keywords_file)
              :: map Stdout (printed (filter_conda_by_keywords conda keywords true))
              ++ [WrittenTo output_file])%list;
           run_files := [(output_file, Dumped R)];
           run_end := Ok tt |}
    | Some e =>
        {| run_out :=
             (Stdout (Loaded (length keywords) keywords_file)
              :: map Stdout (printed (filter_conda_by_keywords conda keywords true)))%list;
           run_files := [(output_file, Broken)];
           run_end := Raise e |}
    end.
Proof.
  intros Hkw Hparse Hfilter Hopen.
  destruct (load_keywords_returns ext keywords_file keywords Hkw) as [_ Hout].
  unfold returned, printed in Hkw, Hout. unfold main, io_bind.
  destruct (load_keywords_from_yaml ext keywords_file []) as [out r].
  simpl in Hkw, Hout. subst. unfold lift. rewrite Hparse.
  rewrite filter_frame, Hfilter.
  unfold save_filtered_conda_to_json. rewrite Hopen.
  destruct (dump_error R); simpl; [now rewrite app_nil_r|reflexivity].
Qed.

Lemma main_writes_filtered_witness :
  main faulty writable dumps "good" "keywords.yaml" "out.json"
  = match dumps [(KStr "pkg1", doc_pkg1)] with
    | None =>
        {| run_out :=
             (Stdout (Loaded (length [VStr "microbiome"; VStr "16S"]) "keywords.yaml")
              :: map Stdout
                   (printed (filter_conda_by_keywords
                               [(KStr "pkg1", doc_pkg1); (KStr "pkg2", doc_pkg2)]
                               [VStr "microbiome"; VStr "16S"] true))
              ++ [WrittenTo "out.json"])%list;
           run_files := [("out.json", Dumped [(KStr "pkg1", doc_pkg1)])];
           run_end := Ok tt |}
    | Some e =>
        {| run_out :=
             (Stdout (Loaded (length [VStr "microbiome"; VStr "16S"]) "keywords.yaml")
              :: map Stdout
                   (printed (filter_conda_by_keywords
                               [(KStr "pkg1", doc_pkg1); (KStr "pkg2", doc_pkg2)]
                               [VStr "microbiome"; VStr "16S"] true)))%list;
           run_files := [("out.json", Broken)];
           run_end := Raise e |}
    end.
Proof.
  apply (main_writes_filtered faulty writable dumps "good" "keywords.yaml" "out.json"
           [VStr "microbiome"; VStr "16S"]
           [(KStr "pkg1", doc_pkg1); (KStr "pkg2", doc_pkg2)]
           [(KStr "pkg1", doc_pkg1)]);
    reflexivity.
Defined.
